(** * SeaGOAT-on-Steroids: the conversation engine of [assistant.py]

    A shallow embedding of [src/seagoat_on_steroids/assistant.py]: the
    program's globals ([messages], [prompt_tokens], [completion_tokens]),
    the session-history folder, standard input and everything the program
    writes are fields of one [State]; a Python function is a computation in
    a state-and-exception monad [Run], so that a mutation made before an
    exception is raised is still there when the exception is caught.

    The file has two parts. The first holds the definitions: the Python
    values and library functions the program uses (module [Py]), the
    state and the collaborators ([State], [Env]), the functions of
    [assistant.py] under their own names (section [Program]), the
    vocabulary of the statements, and sample runs (module [Sample]). The
    second holds the properties: what a turn does for each outcome of the
    remote call, what [main] does before its loop, how the last session
    is found in the session folder, how the prompt is laid out, and what
    the expense estimate is worth in binary64.

    A [str] is held as the bytes of its UTF-8 encoding, a [float] is a
    number of [SpecFloat] at the precision of binary64, and the session
    folder is a map from file names to files. *)

From stdpp Require Import base strings list gmap sorting pretty.
From Stdlib Require Import ZArith Ascii QArith Qpower Lqa.
From Stdlib Require Floats.SpecFloat.

#[local] Close Scope Q_scope.

#[local] Set Warnings "-register-all".

(** ** Python exceptions *)

(** The exceptions the program raises, catches or lets escape. The three
    [Requests...] constructors are [requests.ConnectionError],
    [requests.Timeout] and [requests.ConnectTimeout], the last being a
    subclass of the first two. [OSError] is the class itself, raised by
    [open] for a name that is too long; [FileNotFoundError] and
    [IsADirectoryError] are subclasses of it, which an [except] clause
    for one of them does not confuse. *)
Inductive exn : Type :=
  | EOFError
  | KeyboardInterrupt
  | KeyError (key : string)
  | IndexError
  | TypeError
  | AttributeError
  | JSONDecodeError
  | FileNotFoundError
  | IsADirectoryError
  | OSError
  | ValueError
  | OverflowError
  | ZeroDivisionError
  | RequestsConnectionError
  | RequestsTimeout
  | RequestsConnectTimeout
  | OtherError (name : string).

Definition isinstance_ConnectionError (e : exn) : bool :=
  match e with
  | RequestsConnectionError | RequestsConnectTimeout => true
  | _ => false
  end.

Definition isinstance_Timeout (e : exn) : bool :=
  match e with
  | RequestsTimeout | RequestsConnectTimeout => true
  | _ => false
  end.

Definition is_KeyboardInterrupt (e : exn) : bool :=
  match e with KeyboardInterrupt => true | _ => false end.

Definition is_EOFError (e : exn) : bool :=
  match e with EOFError => true | _ => false end.

Definition is_FileNotFoundError (e : exn) : bool :=
  match e with FileNotFoundError => true | _ => false end.

(** ** JSON values

    What [r.json()] and [json.loads] return, and what the [messages] list
    holds. A [JDict] keeps its fields in order; [getitem] reads the first
    field of a name. Numbers are integers: the program reads no other
    number (token counts). *)
Inductive json : Type :=
  | JNull
  | JBool (b : bool)
  | JNum (n : Z)
  | JStr (s : string)
  | JList (items : list json)
  | JDict (fields : list (string * json)).

Module Py.

(** *** [str] methods

    A [str] is held as the bytes of its UTF-8 encoding: a character of
    ASCII is one byte, any other character two to four bytes. A byte
    string is found in another, and two strings compare, as the strings
    of characters do. *)

Definition lower_char (c : ascii) : ascii :=
  let n := Ascii.N_of_ascii c in
  if ((65 <=? n) && (n <=? 90))%N then Ascii.ascii_of_N (n + 32) else c.

(** [s.lower()], for the letters the program can tell apart: its two
    tests compare the result with [/q] and with the empty string, and
    [Q] and [q] are the only characters whose lower case is [q]. A
    letter outside ASCII is left as it is. *)
Fixpoint lower (s : string) : string :=
  match s with
  | EmptyString => EmptyString
  | String c s' => String (lower_char c) (lower s')
  end.

(** [c.isspace()] for one character [c], given by its bytes. The white
    space of [str]: the characters 9 to 13 and 28 to 32 of ASCII, U+0085
    and U+00A0 (two bytes each), U+1680, U+2000 to U+200A, U+2028, U+2029,
    U+202F, U+205F and U+3000 (three bytes each). *)
Definition isspace (c : list N) : bool :=
  match c with
  | [a] => (((9 <=? a) && (a <=? 13)) || ((28 <=? a) && (a <=? 32)))%N
  | [a; b] => ((a =? 194) && ((b =? 133) || (b =? 160)))%N
  | [a; b; c] =>
      (((a =? 225) && (b =? 154) && (c =? 128))
       || ((a =? 226) && (b =? 128) &&
           (((128 <=? c) && (c <=? 138)) || (c =? 168) || (c =? 169) || (c =? 175)))
       || ((a =? 226) && (b =? 129) && (c =? 159))
       || ((a =? 227) && (b =? 128) && (c =? 128)))%N
  | _ => false
  end.

(** The white space at the front of [s] is taken off, character by
    character. With [backwards], [s] is a string read from its end, and
    the bytes of a character come last byte first. *)
Fixpoint skip_space (backwards : bool) (s : string) : string :=
  let bytes (c : list ascii) :=
    Ascii.N_of_ascii <$> (if backwards then reverse c else c) in
  match s with
  | EmptyString => EmptyString
  | String a s1 =>
      if isspace (bytes [a]) then skip_space backwards s1 else
      match s1 with
      | EmptyString => s
      | String b s2 =>
          if isspace (bytes [a; b]) then skip_space backwards s2 else
          match s2 with
          | EmptyString => s
          | String c s3 =>
              if isspace (bytes [a; b; c]) then skip_space backwards s3 else s
          end
      end
  end.

(** [s.lstrip()] and [s.rstrip()] *)
Definition lstrip (s : string) : string := skip_space false s.

Definition rstrip (s : string) : string :=
  String.rev (skip_space true (String.rev s)).

(** [s.strip()] *)
Definition strip (s : string) : string := rstrip (lstrip s).

(** The characters of [s]: a byte from 128 to 191 goes on with the
    character of the byte before it. *)
Fixpoint chars (s : string) : list string :=
  match s with
  | EmptyString => []
  | String a rest =>
      match chars rest with
      | String b c :: cs =>
          if ((128 <=? Ascii.N_of_ascii b) && (Ascii.N_of_ascii b <? 192))%N
          then String a (String b c) :: cs
          else String a EmptyString :: String b c :: cs
      | cs => String a EmptyString :: cs
      end
  end.

(** [p] is a prefix of [s]: on success, what follows it. *)
Fixpoint strip_prefix (p s : string) : option string :=
  match p, s with
  | EmptyString, _ => Some s
  | String a p', String b s' =>
      if decide (a = b) then strip_prefix p' s' else None
  | String _ _, EmptyString => None
  end.

Definition startswith (s p : string) : bool :=
  bool_decide (is_Some (strip_prefix p s)).

(** [s.endswith(suffix)] *)
Fixpoint endswith (s suffix : string) : bool :=
  bool_decide (s = suffix) ||
  match s with
  | EmptyString => false
  | String _ s' => endswith s' suffix
  end.

(** [s.replace(old, new)] for a non-empty [old]: the occurrences of
    [old] are found from left to right and do not overlap. [skip]
    counts the characters of a matched occurrence still to be dropped. *)
Fixpoint replace_from (skip : nat) (old new s : string) : string :=
  match s with
  | EmptyString => EmptyString
  | String c s' =>
      match skip with
      | S k => replace_from k old new s'
      | O =>
          if startswith s old
          then new +:+ replace_from (String.length old - 1) old new s'
          else String c (replace_from O old new s')
      end
  end.

Definition replace (s old new : string) : string := replace_from 0 old new s.

(** [sep.join(parts)] *)
Fixpoint join (sep : string) (parts : list string) : string :=
  match parts with
  | [] => EmptyString
  | [p] => p
  | p :: rest => p +:+ sep +:+ join sep rest
  end.

(** *** Subscripts, membership and arithmetic on JSON values *)

Fixpoint assoc (k : string) (fields : list (string * json)) : option json :=
  match fields with
  | [] => None
  | (k', v) :: rest => if decide (k = k') then Some v else assoc k rest
  end.

(** [v[key]] for a string [key] *)
Definition getitem (v : json) (key : string) : exn + json :=
  match v with
  | JDict fields =>
      match assoc key fields with
      | Some x => inr x
      | None => inl (KeyError key)
      end
  | _ => inl TypeError
  end.

(** [v[0]] *)
Definition getitem0 (v : json) : exn + json :=
  match v with
  | JList (x :: _) => inr x
  | JList [] => inl IndexError
  | JStr s =>
      match chars s with
      | c :: _ => inr (JStr c)
      | [] => inl IndexError
      end
  | JDict _ => inl (KeyError "0")
  | _ => inl TypeError
  end.

Fixpoint contains (s sub : string) : bool :=
  startswith s sub ||
  match s with
  | EmptyString => false
  | String _ s' => contains s' sub
  end.

Definition is_str (v : json) (s : string) : bool :=
  match v with JStr s' => bool_decide (s' = s) | _ => false end.

(** [key in v] for a string [key] *)
Definition has (key : string) (v : json) : exn + bool :=
  match v with
  | JDict fields => inr (bool_decide (is_Some (assoc key fields)))
  | JList items => inr (existsb (λ x, is_str x key) items)
  | JStr s => inr (contains s key)
  | _ => inl TypeError
  end.

(** [v.strip()] *)
Definition strip_method (v : json) : exn + string :=
  match v with
  | JStr s => inr (strip s)
  | _ => inl AttributeError
  end.

(** [n + v] for an integer [n]; [True] and [False] count as 1 and 0 *)
Definition add (n : Z) (v : json) : exn + Z :=
  match v with
  | JNum k => inr (n + k)%Z
  | JBool b => inr (n + (if b then 1 else 0))%Z
  | _ => inl TypeError
  end.

(** what [for x in v] goes through *)
Definition iter (v : json) : exn + list json :=
  match v with
  | JList items => inr items
  | JDict fields => inr ((λ kv, JStr kv.1) <$> fields)
  | JStr s => inr (JStr <$> chars s)
  | _ => inl TypeError
  end.

(** *** [float]

    A [float] is a binary64 number of IEEE 754 and its operations round
    to nearest, ties to even: the specification [SpecFloat] of the
    Standard Library, at precision 53 and maximal exponent 1024. *)
Definition float : Type := SpecFloat.spec_float.

(** The integer [n], with the sign turned when [negative], as a number
    that is still to be rounded. *)
Definition exact (negative : bool) (n : Z) : float :=
  match n with
  | Z0 => SpecFloat.S754_zero negative
  | Zpos m => SpecFloat.S754_finite negative m 0
  | Zneg m => SpecFloat.S754_finite (negb negative) m 0
  end.












(** truth value of an optional command-line string *)
Definition truthy (o : option string) : bool :=
  match o with
  | Some (String _ _) => true
  | _ => false
  end.

End Py.

(** ** What the program keeps, reads and writes *)

(** The levels of the [logging] module the program uses. *)
Inductive level : Type := INFO | WARNING | ERROR.

Definition level_no (l : level) : nat :=
  match l with INFO => 20 | WARNING => 30 | ERROR => 40 end.

(** What reaches the terminal: a record the logger lets through (its
    message is a string, or the JSON value of [logger.error(r.json())]),
    and the calls on [console] and [print]. *)
Inductive event : Type :=
  | Logged (lvl : level) (text : string)
  | LoggedValue (lvl : level) (value : json)
  | ConsoleLine
  | ConsoleRule
  | ConsoleMarkdown (text : string)
  | Printed (text : string).

(** A file of the session-history folder: its content parsed by
    [json.loads], or text that [json.loads] rejects. *)
Inductive file : Type :=
  | FileJson (content : json)
  | FileText (raw : string).

(** One call of [requests.post]: the [Authorization] header and the body. *)
Record Request : Type := mkRequest {
  authorization : string;
  body_model : string;
  body_temperature : json;
  body_messages : list json;
  body_max_tokens : option json;
  body_response_format : option json
}.

(** The response [r]: [r.status_code], and [r.json()] when the body parses. *)
Record Response : Type := mkResponse {
  status_code : Z;
  json_body : option json
}.

(** The answer of the search service, as [get_context_from_seagoat] reads
    it: [result["path"]], [result["blocks"]], [block["lines"]],
    [line["line"]] and [line["lineText"]]. *)
Record result_line : Type := mkLine { line : Z; lineText : string }.
Record result_block : Type := mkBlock { lines : list result_line }.
Record result : Type := mkResult { path : string; blocks : list result_block }.

(** The [config] dictionary: the keys of the YAML file and the two keys
    [main] adds. *)
Record Config : Type := mkConfig {
  api_key : string;
  model : string;
  temperature : json;
  max_tokens : option json;
  markdown : bool;
  non_interactive : bool;
  json_mode : bool
}.

(** The command line of [main]; a context file is its name and content. *)
Record Args : Type := mkArgs {
  arg_context : list (string * string);
  arg_api_key : option string;
  arg_model : option string;
  arg_multiline : bool;
  arg_restore : option string;
  arg_non_interactive : bool;
  arg_json_mode : bool;
  arg_repo : string
}.

(** The collaborators of the program: the clock at import, the SeaGOAT
    client, the prompt of the terminal and the completion API. The [n]-th
    prompt and the [n]-th post each have their own outcome. [open_outside]
    is what [open] does with a path that has a separator in it, and so
    leads out of the session folder. *)
Record Env : Type := mkEnv {
  now : string;
  environ_OPENAI_API_KEY : option string;
  load_config : Config;
  open_outside : string → exn + file;
  get_server_info : string → string;
  query_server : string → string → exn + list result;
  rewrite_full_paths_to_use_local_path : string → list result → list result;
  session_prompt : nat → exn + string;
  requests_post : nat → Request → exn + Response
}.

(** The three globals of the module, then the world around them. *)
Record State : Type := mkState {
  messages : list json;
  prompt_tokens : Z;
  completion_tokens : Z;
  session_history : gmap string file;
  stdin : string;
  prompted : nat;
  posted : list Request;
  logger_level : level;
  output : list event
}.

Definition with_messages (ms : list json) (s : State) : State :=
  mkState ms (prompt_tokens s) (completion_tokens s) (session_history s)
    (stdin s) (prompted s) (posted s) (logger_level s) (output s).

Definition with_prompt_tokens (n : Z) (s : State) : State :=
  mkState (messages s) n (completion_tokens s) (session_history s)
    (stdin s) (prompted s) (posted s) (logger_level s) (output s).

Definition with_completion_tokens (n : Z) (s : State) : State :=
  mkState (messages s) (prompt_tokens s) n (session_history s)
    (stdin s) (prompted s) (posted s) (logger_level s) (output s).

Definition with_session_history (fs : gmap string file) (s : State) : State :=
  mkState (messages s) (prompt_tokens s) (completion_tokens s) fs
    (stdin s) (prompted s) (posted s) (logger_level s) (output s).

Definition with_stdin (i : string) (s : State) : State :=
  mkState (messages s) (prompt_tokens s) (completion_tokens s)
    (session_history s) i (prompted s) (posted s) (logger_level s) (output s).

Definition with_prompted (n : nat) (s : State) : State :=
  mkState (messages s) (prompt_tokens s) (completion_tokens s)
    (session_history s) (stdin s) n (posted s) (logger_level s) (output s).

Definition with_posted (rs : list Request) (s : State) : State :=
  mkState (messages s) (prompt_tokens s) (completion_tokens s)
    (session_history s) (stdin s) (prompted s) rs (logger_level s) (output s).

Definition with_logger_level (l : level) (s : State) : State :=
  mkState (messages s) (prompt_tokens s) (completion_tokens s)
    (session_history s) (stdin s) (prompted s) (posted s) l (output s).

Definition with_output (o : list event) (s : State) : State :=
  mkState (messages s) (prompt_tokens s) (completion_tokens s)
    (session_history s) (stdin s) (prompted s) (posted s) (logger_level s) o.

(** The state of a process that has just imported the module. *)
Definition fresh (fs : gmap string file) (input : string) : State :=
  mkState [] 0 0 fs input 0 [] INFO [].

(** ** The monad of a run *)

Definition Run (A : Type) : Type := State → (exn + A) * State.

Definition ret {A} (a : A) : Run A := λ s, (inr a, s).

Definition raise {A} (e : exn) : Run A := λ s, (inl e, s).

Definition bind {A B} (m : Run A) (k : A → Run B) : Run B := λ s,
  match m s with
  | (inr a, s') => k a s'
  | (inl e, s') => (inl e, s')
  end.

(** A pure step that may raise. *)
Definition lift {A} (r : exn + A) : Run A := λ s, (r, s).

(** [try: m  except ...:] the handler chooses a clause by the exception,
    [None] when no clause matches. *)
Definition try_except {A} (m : Run A) (handler : exn → option (Run A)) : Run A :=
  λ s,
  match m s with
  | (inr a, s') => (inr a, s')
  | (inl e, s') =>
      match handler e with
      | Some h => h s'
      | None => (inl e, s')
      end
  end.

Definition gets {A} (f : State → A) : Run A := λ s, (inr (f s), s).

Definition modify (f : State → State) : Run unit := λ s, (inr (), f s).

Declare Scope run_scope.
Delimit Scope run_scope with run.
Bind Scope run_scope with Run.
Notation "x <- m ;; k" := (bind m (λ x, k))
  (at level 100, m at next level, right associativity) : run_scope.
Notation "m ;; k" := (bind m (λ _, k))
  (at level 100, right associativity) : run_scope.
#[local] Open Scope run_scope.

Definition when (b : bool) (m : Run unit) : Run unit :=
  if b then m else ret ().

Definition for_each {A} (body : A → Run unit) : list A → Run unit :=
  fix go l :=
    match l with
    | [] => ret ()
    | x :: rest => (body x ;; go rest)
    end.

(** ** The primitives of the run *)

Definition emit (e : event) : Run unit :=
  modify (λ s, with_output (output s ++ [e]) s).

(** [logger.setLevel] and the three logging calls: a record below the
    level of the logger is dropped. *)
Definition logger_setLevel (l : level) : Run unit :=
  modify (with_logger_level l).

Definition logger_log (lvl : level) (e : event) : Run unit :=
  cur <- gets logger_level ;;
  when (bool_decide (level_no cur ≤ level_no lvl)) (emit e).

Definition logger_info (text : string) : Run unit :=
  logger_log INFO (Logged INFO text).
Definition logger_error (text : string) : Run unit :=
  logger_log ERROR (Logged ERROR text).
Definition logger_error_value (v : json) : Run unit :=
  logger_log ERROR (LoggedValue ERROR v).

(** [messages.append(m)], [messages.pop()] and [messages.clear()] *)
Definition messages_append (m : json) : Run unit :=
  modify (λ s, with_messages (messages s ++ [m]) s).

Definition messages_pop : Run unit := λ s,
  match messages s with
  | [] => (inl IndexError, s)
  | _ :: _ => (inr (), with_messages (removelast (messages s)) s)
  end.

Definition messages_clear : Run unit :=
  modify (with_messages []).

(** [sys.stdin.read()]: everything not read yet; nothing is left. *)
Definition sys_stdin_read : Run string :=
  input <- gets stdin ;;
  modify (with_stdin EmptyString) ;;
  ret input.

(** [r.json()] *)
Definition r_json (r : Response) : Run json :=
  match json_body r with
  | Some v => ret v
  | None => raise JSONDecodeError
  end.

Definition nl : string := String "010" EmptyString.
Definition dquote : string := String "034" EmptyString.

Section Program.

Context (env : Env).

(** [session.prompt(...)]: the next line from the terminal, or the
    exception of Ctrl-C or Ctrl-D. *)
Definition prompt : Run string :=
  n <- gets prompted ;;
  modify (with_prompted (S n)) ;;
  lift (session_prompt env n).

(** [requests.post(...)]: the request is sent, then the outcome is the
    response or an exception of [requests]. *)
Definition post (req : Request) : Run Response :=
  n <- gets (λ s, length (posted s)) ;;
  modify (λ s, with_posted (posted s ++ [req]) s) ;;
  lift (requests_post env n req).

(** *** Module constants *)

Definition SAVE_FILE : string := "chatgpt-session-" +:+ now env +:+ ".json".

(** *** [load_history_data] *)

(** The longest file name, in bytes, that the file systems of Linux and
    macOS take. *)
Definition NAME_MAX : nat := 255.

(** [open] on the path of [SAVE_FOLDER] joined with a [name] that is not
    the name of a file of the folder. The folder holds files only, and
    its own path leaves room for a name of [NAME_MAX] bytes. A NUL is
    refused by Python itself; the empty name, [.] and [..] are
    directories; a longer name than [NAME_MAX] is refused by the file
    system with [ENAMETOOLONG], which Python raises as a plain [OSError];
    any other name is the name of nothing. *)
Definition open_missing (name : string) : exn + file :=
  if Py.contains name (String Ascii.zero EmptyString) then inl ValueError
  else if Py.contains name "/" then open_outside env name
  else if bool_decide (name ∈ [EmptyString; "."; ".."]) then inl IsADirectoryError
  else if bool_decide (NAME_MAX < String.length name) then inl OSError
  else inl FileNotFoundError.

(** [open(history_file)], the path being given by the name in
    [SAVE_FOLDER] *)
Definition open_ (folder : gmap string file) (name : string) : exn + file :=
  match folder !! name with
  | Some f => inr f
  | None => open_missing name
  end.

(** [json.loads(file.read())] *)
Definition json_loads (f : file) : exn + json :=
  match f with
  | FileText _ => inl JSONDecodeError
  | FileJson content => inr content
  end.

Definition load_history_data (history_file : string) : Run json :=
  folder <- gets session_history ;;
  file <- lift (open_ folder history_file) ;;
  content <- lift (json_loads file) ;;
  ret content.

(** *** [get_last_save_file] *)

(** [os.listdir(SAVE_FOLDER)] *)
Definition os_listdir (folder : gmap string file) : list string :=
  elements (dom folder).

(** The function reads the session folder and nothing else: the folder
    is its argument. [ts.sort()] is a merge sort on the order of [str]. *)
Definition get_last_save_file (folder : gmap string file) : option string :=
  let files := filter (λ f, Py.endswith f ".json" = true) (os_listdir folder) in
  match files with
  | _ :: _ =>
      let ts := (λ f, Py.replace (Py.replace f "chatgpt-session-" "") ".json" "")
                  <$> files in
      let ts := merge_sort String.le ts in
      last ts
  | [] => None
  end.

(** *** [save_history] *)
Definition session_record (model : string) (messages : list json)
    (prompt_tokens completion_tokens : Z) : json :=
  JDict [("model", JStr model);
         ("messages", JList messages);
         ("prompt_tokens", JNum prompt_tokens);
         ("completion_tokens", JNum completion_tokens)].

Definition save_history (model : string) (messages : list json)
    (prompt_tokens completion_tokens : Z) : Run unit :=
  modify (λ s, with_session_history
    (<[SAVE_FILE := FileJson (session_record model messages prompt_tokens
                                completion_tokens)]> (session_history s)) s).

(** *** [add_markdown_system_message] *)
Definition system_message (content : string) : json :=
  JDict [("role", JStr "system"); ("content", JStr content)].

Definition add_markdown_system_message : Run unit :=
  let instruction := "Always use code blocks with the appropriate language tags. If asked for a table always format it using Markdown syntax." in
  messages_append (system_message instruction).

(** *** [calculate_expense] and [display_expense] *)





(** *** [get_context_from_seagoat] *)

(** The body of [for block in result["blocks"]]: [lines[0]] and
    [lines[-1]] raise [IndexError] on a block without lines. *)
Definition for_block (path : string) (block : result_block)
    (result_lines : list string) : exn + list string :=
  match head (lines block), last (lines block) with
  | Some first, Some final =>
      let first_line_number := line first in
      let last_line_number := line final in
      let result_lines := result_lines ++ ["File: " +:+ path] in
      let result_lines := result_lines ++
        ["Lines: " +:+ pretty first_line_number +:+ "-" +:+ pretty last_line_number] in
      let result_lines := result_lines ++ [EmptyString] in
      let result_lines := result_lines ++ ["```"] in
      let result_lines := foldl (λ acc l, acc ++ [lineText l]) result_lines (lines block) in
      inr (result_lines ++ ["```"])
  | _, _ => inl IndexError
  end.

Fixpoint for_blocks (path : string) (bs : list result_block)
    (result_lines : list string) : exn + list string :=
  match bs with
  | [] => inr result_lines
  | block :: rest =>
      match for_block path block result_lines with
      | inr result_lines => for_blocks path rest result_lines
      | inl e => inl e
      end
  end.

Fixpoint for_results (rs : list result) (result_lines : list string)
    : exn + list string :=
  match rs with
  | [] => inr result_lines
  | r :: rest =>
      match for_blocks (path r) (blocks r) result_lines with
      | inr result_lines => for_results rest result_lines
      | inl e => inl e
      end
  end.

Definition get_context_from_seagoat (seagoat_address message repo : string)
    : exn + string :=
  match query_server env message seagoat_address with
  | inl e => inl e
  | inr seagoat_results =>
      let seagoat_results :=
        rewrite_full_paths_to_use_local_path env repo seagoat_results in
      match for_results seagoat_results [] with
      | inl e => inl e
      | inr result_lines => inr (Py.join nl result_lines)
      end
  end.

(** *** [start_prompt] *)

Definition user_message (content : string) : json :=
  JDict [("role", JStr "user"); ("content", JStr content)].

(** The f-string that replaces [message]. *)
Definition augmented (context_from_seagoat message : string) : string :=
  "Answer the users query with the following code snippets from their code repository as your context:" +:+ nl +:+
  context_from_seagoat +:+ nl +:+
  "====" +:+ nl +:+
  "Keep in mind that you only need to use this context if it's actually relevant to the context." +:+ nl +:+
  "Feel free to mention different options, and if possible mention even the code line numbers." +:+ nl +:+
  "Finally, this is the actual user query that you have to answer: " +:+
  dquote +:+ message +:+ dquote +:+ nl +:+
  "    ".

(** The request of the turn: [headers] and [body]. *)
Definition build_request (config : Config) (messages : list json) : Request :=
  mkRequest ("Bearer " +:+ api_key config)
    (model config) (temperature config) messages
    (max_tokens config)
    (if json_mode config
     then Some (JDict [("type", JStr "json_object")]) else None).

(** [case 200] *)
Definition case_200 (config : Config) (r : Response) : Run unit :=
  response <- r_json r ;;
  choices <- lift (Py.getitem response "choices") ;;
  choice <- lift (Py.getitem0 choices) ;;
  message_response <- lift (Py.getitem choice "message") ;;
  usage_response <- lift (Py.getitem response "usage") ;;
  when (negb (non_interactive config)) (emit ConsoleLine) ;;
  content <- lift (Py.getitem message_response "content") ;;
  text <- lift (Py.strip_method content) ;;
  (if markdown config then emit (ConsoleMarkdown text) else emit (Printed text)) ;;
  when (negb (non_interactive config)) (emit ConsoleLine) ;;
  messages_append message_response ;;
  used <- lift (Py.getitem usage_response "prompt_tokens") ;;
  n <- gets prompt_tokens ;;
  n <- lift (Py.add n used) ;;
  modify (with_prompt_tokens n) ;;
  used <- lift (Py.getitem usage_response "completion_tokens") ;;
  n <- gets completion_tokens ;;
  n <- lift (Py.add n used) ;;
  modify (with_completion_tokens n) ;;
  ms <- gets messages ;;
  pt <- gets prompt_tokens ;;
  ct <- gets completion_tokens ;;
  save_history (model config) ms pt ct ;;
  if non_interactive config then raise EOFError else ret ().

(** [case 400] *)
Definition case_400 (r : Response) : Run unit :=
  response <- r_json r ;;
  has_error <- lift (Py.has "error" response) ;;
  (if has_error : bool then
     error <- lift (Py.getitem response "error") ;;
     code <- lift (Py.getitem error "code") ;;
     if Py.is_str code "context_length_exceeded" then
       logger_error "[red bold]Maximum context length exceeded" ;;
       raise EOFError
     else ret ()
   else ret ()) ;;
  logger_error "[red bold]Invalid request" ;;
  raise EOFError.

(** The shared body of the two [except] clauses around the request and
    of [case 429], [case 500] and [case 502 | 503]: report, take the
    last message back, and have the caller prompt again. *)
Definition case_retry {A} (text : string) : Run A :=
  logger_error text ;;
  messages_pop ;;
  raise KeyboardInterrupt.

(** [case _] *)
Definition case_other (r : Response) : Run unit :=
  logger_error ("[red bold]Unknown error, status code " +:+ pretty (status_code r)) ;;
  body <- r_json r ;;
  logger_error_value body ;;
  raise EOFError.

(** The two [except] clauses around [requests.post]. *)
Definition post_handler (e : exn) : option (Run Response) :=
  if isinstance_ConnectionError e then
    Some (case_retry "[red bold]Connection error, try again...")
  else if isinstance_Timeout e then
    Some (case_retry "[red bold]Connection timed out, try again...")
  else None.

(** The [match r.status_code] of [start_prompt]. *)
Definition dispatch (config : Config) (r : Response) : Run unit :=
  let status := status_code r in
  if (status =? 200)%Z then case_200 config r
  else if (status =? 400)%Z then case_400 r
  else if (status =? 401)%Z then
    logger_error "[red bold]Invalid API Key" ;;
    raise EOFError
  else if (status =? 429)%Z then
    case_retry "[red bold]Rate limit or maximum monthly limit exceeded"
  else if (status =? 500)%Z then
    case_retry "[red bold]Internal server error, check https://status.openai.com"
  else if ((status =? 502) || (status =? 503))%Z then
    case_retry "[red bold]The server seems to be overloaded, try again"
  else case_other r.

(** The utterance: all of standard input, or one prompt. *)
Definition read_message (config : Config) : Run string :=
  if non_interactive config then sys_stdin_read else prompt.

Definition start_prompt (config : Config) (seagoat_address repo : string)
    : Run unit :=
  message <- read_message config ;;
  context_from_seagoat <- lift (get_context_from_seagoat seagoat_address message repo) ;;
  let message := augmented context_from_seagoat message in
  if bool_decide (Py.lower message = "/q") then raise EOFError else
  if bool_decide (Py.lower message = EmptyString) then raise KeyboardInterrupt else
  messages_append (user_message message) ;;
  ms <- gets messages ;;
  r <- try_except (post (build_request config ms)) post_handler ;;
  dispatch config r.

(** *** [main] *)

(** How the process ends: [break] leaves the loop, an exception that no
    clause catches ends the process, or the fuel of the model runs out
    while the loop is still going. *)
Inductive ending : Type :=
  | Break
  | Uncaught (e : exn)
  | Running.

(** [while True: try: start_prompt(...)] with its two [except] clauses *)
Fixpoint loop (fuel : nat) (config : Config) (seagoat_address repo : string)
    (s : State) : ending * State :=
  match fuel with
  | O => (Running, s)
  | S fuel =>
      match start_prompt config seagoat_address repo s with
      | (inr _, s') => loop fuel config seagoat_address repo s'
      | (inl e, s') =>
          if is_KeyboardInterrupt e then loop fuel config seagoat_address repo s'
          else if is_EOFError e then (Break, s')
          else (Uncaught e, s')
      end
  end.

(** The configuration after the command line and the environment have
    been applied to the file. *)
Definition configure (args : Args) : Config :=
  let config := load_config env in
  let key :=
    if Py.truthy (environ_OPENAI_API_KEY env)
    then Py.strip (default EmptyString (environ_OPENAI_API_KEY env))
    else api_key config in
  let key :=
    if Py.truthy (arg_api_key args)
    then Py.strip (default EmptyString (arg_api_key args))
    else key in
  let name :=
    if Py.truthy (arg_model args)
    then Py.strip (default EmptyString (arg_model args))
    else model config in
  mkConfig key name (temperature config) (max_tokens config)
    (if arg_non_interactive args then false else markdown config)
    (arg_non_interactive args) (arg_json_mode args).

(** The name of the file to restore; the f-string prints [None] when
    there is no last session. *)
Definition restore_file (folder : gmap string file) (restore : string) : string :=
  if bool_decide (restore = "last") then
    let last_session := get_last_save_file folder in
    "chatgpt-session-" +:+ default "None" last_session +:+ ".json"
  else "chatgpt-session-" +:+ restore +:+ ".json".

(** [if restore:] the block that restores a previous session *)
Definition restore_session (restore : string) : Run unit :=
  folder <- gets session_history ;;
  let restore_file := restore_file folder restore in
  try_except
    (messages_clear ;;
     history_data <- load_history_data restore_file ;;
     saved <- lift (Py.getitem history_data "messages") ;;
     saved <- lift (Py.iter saved) ;;
     for_each messages_append saved ;;
     used <- lift (Py.getitem history_data "prompt_tokens") ;;
     n <- gets prompt_tokens ;;
     n <- lift (Py.add n used) ;;
     modify (with_prompt_tokens n) ;;
     used <- lift (Py.getitem history_data "completion_tokens") ;;
     n <- gets completion_tokens ;;
     n <- lift (Py.add n used) ;;
     modify (with_completion_tokens n) ;;
     logger_info ("Restored session: [bold green]" +:+ restore))
    (λ e, if is_FileNotFoundError e
          then Some (logger_error ("[red bold]File " +:+ restore_file +:+ " not found"))
          else None).

(** [main] up to the loop. [atexit.register] only notes that
    [display_expense] is to be called, with the model of the
    configuration, when the process exits. *)
Definition startup (args : Args) : Run Config :=
  when (arg_non_interactive args) (logger_setLevel ERROR) ;;
  logger_info "[bold]ChatGPT CLI" ;;
  let config := configure args in
  logger_info ("Model in use: [green bold]" +:+ model config) ;;
  when (markdown config) add_markdown_system_message ;;
  for_each (λ c : string * string,
      logger_info ("Context file: [green bold]" +:+ c.1) ;;
      messages_append (system_message (Py.strip c.2)))
    (arg_context args) ;;
  match arg_restore args with
  | Some restore => when (Py.truthy (Some restore)) (restore_session restore)
  | None => ret ()
  end ;;
  when (arg_json_mode args)
    (logger_info "JSON response mode is active. Your message should contain the [bold]'json'[/bold] word.") ;;
  when (negb (arg_non_interactive args)) (emit ConsoleRule) ;;
  ret config.

Definition main (fuel : nat) (args : Args) (s : State) : ending * State :=
  let seagoat_address := get_server_info env (arg_repo args) in
  match startup args s with
  | (inr config, s') => loop fuel config seagoat_address (arg_repo args) s'
  | (inl e, s') => (Uncaught e, s')
  end.

End Program.

(** ** The vocabulary of the statements *)

(** The outcomes after which the turn is to be retried: the connection
    failed or timed out, or the status is 429, 500, 502 or 503. *)
Definition retryable (o : exn + Response) : bool :=
  match o with
  | inl e => isinstance_ConnectionError e || isinstance_Timeout e
  | inr r => bool_decide (status_code r ∈ [429; 500; 502; 503]%Z)
  end.

(** Two states with the same conversation, the same session folder and
    the same requests sent: they differ in what was read or written to
    the terminal only. *)
Definition same_conversation (s s' : State) : Prop :=
  messages s' = messages s ∧ prompt_tokens s' = prompt_tokens s ∧
  completion_tokens s' = completion_tokens s ∧
  session_history s' = session_history s ∧ posted s' = posted s.

(** The exceptions of subscripts, membership tests and arithmetic on
    JSON values. *)
Definition value_error (e : exn) : bool :=
  match e with
  | KeyError _ | IndexError | TypeError | AttributeError => true
  | _ => false
  end.

(** The request of a turn: the history with the provisional user message
    at its end. *)
Definition turn_request (config : Config) (history : list json)
    (context message : string) : Request :=
  build_request config (history ++ [user_message (augmented context message)]).

(** A response that carries a completion: its body parses, the message
    of its first choice is [message_response] and has text content, and
    its usage field reports [p] prompt tokens and [c] completion tokens. *)
Definition completion (r : Response) (message_response : json) (p c : Z) : Prop :=
  ∃ response choices choice usage_response text,
    json_body r = Some response ∧
    Py.getitem response "choices" = inr choices ∧
    Py.getitem0 choices = inr choice ∧
    Py.getitem choice "message" = inr message_response ∧
    Py.getitem response "usage" = inr usage_response ∧
    Py.getitem message_response "content" = inr (JStr text) ∧
    Py.getitem usage_response "prompt_tokens" = inr (JNum p) ∧
    Py.getitem usage_response "completion_tokens" = inr (JNum c).

(** A computation that leaves the list of requests sent as it is. *)
Definition sends_nothing {A} (m : Run A) : Prop :=
  ∀ s res s', m s = (res, s') → posted s' = posted s.


(** A step that only writes to the terminal. *)
Definition reports (m : Run unit) : Prop :=
  ∀ s, ∃ o, m s = (inr (), with_output (output s ++ o) s).


(** The name [save_history] gives the session file of a process started
    at [t]. *)
Definition session_file (t : string) : string :=
  "chatgpt-session-" +:+ t +:+ ".json".

(** What [get_last_save_file] keeps of a file name. *)
Definition timestamp_of (f : string) : string :=
  Py.replace (Py.replace f "chatgpt-session-" "") ".json" "".

(** The characters of [strftime("%Y%m%d-%H%M%S")]: digits and the hyphen. *)
Definition timestamp_char (c : ascii) : bool :=
  let n := Ascii.N_of_ascii c in
  (((48 <=? n) && (n <=? 57)) || (n =? 45))%N.

Fixpoint timestamp_chars (t : string) : bool :=
  match t with
  | EmptyString => true
  | String c t' => timestamp_char c && timestamp_chars t'
  end.

(** A file name that [save_history] can have produced. *)
Definition is_session_file (f : string) : bool :=
  timestamp_chars (timestamp_of f) && bool_decide (f = session_file (timestamp_of f)).

(** Every [.json] file of the folder is a saved session. *)
Definition only_sessions (folder : gmap string file) : bool :=
  forallb (λ f, negb (Py.endswith f ".json") || is_session_file f) (os_listdir folder).

(** The stanza of one block: its file, its first and last line numbers,
    an empty line, and its lines between two fences. *)
Definition stanza (path : string) (first final : Z) (texts : list string)
    : list string :=
  ["File: " +:+ path;
   "Lines: " +:+ pretty first +:+ "-" +:+ pretty final;
   EmptyString;
   "```"] ++ texts ++ ["```"].

Definition block_stanza (path : string) (b : result_block) : list string :=
  stanza path (from_option line 0%Z (head (lines b)))
    (from_option line 0%Z (last (lines b))) (lineText <$> lines b).

(** The stanzas of all blocks, in the order of the results and, within a
    result, of its blocks. *)
Definition stanzas (rs : list result) : list string :=
  concat ((λ r, concat (block_stanza (path r) <$> blocks r)) <$> rs).

Definition has_lines (b : result_block) : bool :=
  match lines b with [] => false | _ :: _ => true end.

(** Every block that was retrieved has at least one line. *)
Definition all_have_lines (rs : list result) : bool :=
  forallb (λ r, forallb has_lines (blocks r)) rs.

(** A name that [open] looks for in the session folder, and that it
    reports as not found when the folder has no file of that name: at
    most [NAME_MAX] bytes, without a separator or a NUL, and not the
    empty name, [.] or [..]. *)
Definition file_name (name : string) : bool :=
  negb (Py.contains name (String Ascii.zero EmptyString)) &&
  negb (Py.contains name "/") &&
  negb (bool_decide (name ∈ [EmptyString; "."; ".."])) &&
  bool_decide (String.length name ≤ NAME_MAX).

(** A computation that leaves the observation [f] of the state as it is,
    whether it returns or raises. *)
Definition keeps {A B} (f : State → B) (m : Run A) : Prop :=
  ∀ s res s', m s = (res, s') → f s' = f s.

(** The [.json] files of the folder, which is all [get_last_save_file]
    looks at. *)
Definition json_file (folder : gmap string file) (f : string) : Prop :=
  f ∈ dom folder ∧ Py.endswith f ".json" = true.

(** The system messages of the context files, in the order given. *)
Definition context_messages (files : list (string * string)) : list json :=
  (λ c, system_message (Py.strip c.2)) <$> files.

(** The message list [main] has built when it reaches the restore block. *)
Definition initial_messages (markdown : bool) (files : list (string * string))
    : list json :=
  (if markdown
   then [system_message "Always use code blocks with the appropriate language tags. If asked for a table always format it using Markdown syntax."]
   else []) ++ context_messages files.

(** From [s] to [s'] the messages [extra] were appended and records may
    have been logged; nothing else changed, and nothing was logged if
    the logger is at level [ERROR]. *)
Definition loads (extra : list json) (s s' : State) : Prop :=
  messages s' = messages s ++ extra ∧
  prompt_tokens s' = prompt_tokens s ∧
  completion_tokens s' = completion_tokens s ∧
  session_history s' = session_history s ∧
  stdin s' = stdin s ∧ prompted s' = prompted s ∧ posted s' = posted s ∧
  logger_level s' = logger_level s ∧
  (logger_level s = ERROR → output s' = output s).

(** The session file of the process holds exactly the conversation that
    is in memory. *)
Definition saved_in_full (env : Env) (config : Config) (s : State) : Prop :=
  session_history s !! SAVE_FILE env =
    Some (FileJson (session_record (model config) (messages s)
                      (prompt_tokens s) (completion_tokens s))).






(** *** Rounding *)






(** ** Sample runs *)

Module Sample.

Definition config : Config :=
  mkConfig "sk-test" "gpt-4" (JNum 1) None true false false.

(** Two blocks of [foo.py]: lines 10 to 15 and lines 20 to 22. *)
Definition foo_py : list result :=
  [mkResult "foo.py"
     [mkBlock [mkLine 10 "def foo():"; mkLine 11 "    x = 1"; mkLine 12 "    y = 2";
               mkLine 13 "    z = x + y"; mkLine 14 "    print(z)";
               mkLine 15 "    return z"];
      mkBlock [mkLine 20 "def bar():"; mkLine 21 "    return foo()";
               mkLine 22 EmptyString]]].

(** A 200 response with an assistant message and a usage field. *)
Definition answer (text : string) (p c : Z) : Response :=
  mkResponse 200 (Some (JDict
    [("choices", JList [JDict [("message",
        JDict [("role", JStr "assistant"); ("content", JStr text)])]]);
     ("usage", JDict [("prompt_tokens", JNum p); ("completion_tokens", JNum c)])])).

(** A response of the API that reports an error. *)
Definition refusal (status : Z) (code : string) : Response :=
  mkResponse status (Some (JDict
    [("error", JDict [("code", JStr code); ("message", JStr "refused")])])).

(** A process started at [started]: the user types [typed], line by
    line, then closes the terminal; the search service answers [found];
    the API answers [answers], call by call, then is out of reach. *)
Definition env (started : string) (typed : list string)
    (found : exn + list result) (answers : list (exn + Response)) : Env :=
  mkEnv started None config (λ _, inl FileNotFoundError)
    (λ _, "http://localhost:7532")
    (λ _ _, found) (λ _ rs, rs)
    (λ n, default (inl EOFError) (inr <$> typed !! n))
    (λ n _, default (inl RequestsConnectionError) (answers !! n)).

Definition address : string := "http://localhost:7532".
Definition repo : string := "/home/user/project".

Definition args (restore : option string) (non_interactive : bool) : Args :=
  mkArgs [] None None false restore non_interactive false repo.

Definition started : string := "20240101-120000".

(** The run of one retry: the API is rate limited, then answers. *)
Definition limited_then_ok : list (exn + Response) :=
  [inr (refusal 429 "rate_limit_exceeded"); inr (answer "foo adds two numbers." 310 12)].

Definition instruction : json :=
  system_message "Always use code blocks with the appropriate language tags. If asked for a table always format it using Markdown syntax.".

Definition assistant (text : string) : json :=
  JDict [("role", JStr "assistant"); ("content", JStr text)].

(** What [get_context_from_seagoat] returns for [foo_py]. *)
Definition foo_context : string :=
  Py.join nl
    ["File: foo.py"; "Lines: 10-15"; EmptyString; "```";
     "def foo():"; "    x = 1"; "    y = 2"; "    z = x + y"; "    print(z)";
     "    return z"; "```";
     "File: foo.py"; "Lines: 20-22"; EmptyString; "```";
     "def bar():"; "    return foo()"; EmptyString; "```"].

(** The user types [typed] at the first prompt, the search finds nothing
    and the API answers: the turn returns normally, with the wrapped text
    as user message, sent to the API, and the answer after it. *)
Definition sent_as_query (typed : string) : Prop :=
  ∃ s', start_prompt (env started [typed] (inr []) [inr (answer "Bye." 40 2)])
          config address repo (fresh ∅ EmptyString) = (inr (), s') ∧
        messages s' = [user_message (augmented EmptyString typed); assistant "Bye."] ∧
        body_messages <$> posted s' = [[user_message (augmented EmptyString typed)]].

(** One interactive turn on [foo_py], for each outcome of the call. *)
Definition one_turn (outcome : exn + Response) : Env :=
  env started ["explain foo()"] (inr foo_py) [outcome].

Definition asked : State := with_prompted 1 (fresh ∅ EmptyString).

(** Three sessions, saved by processes started at three times. *)
Definition three_sessions : gmap string file :=
  <[session_file "20240315-101500" :=
      FileJson (session_record "gpt-4"
        [user_message "third"; assistant "3"] 30 3)]>
  (<[session_file "20240102-090000" :=
      FileJson (session_record "gpt-4"
        [user_message "second"; assistant "2"] 20 2)]>
  (<[session_file "20240101-120000" :=
      FileJson (session_record "gpt-4"
        [user_message "first"; assistant "1"] 10 1)]> ∅)).


(** The three sessions and a file that is not a session. *)
Definition cluttered : gmap string file :=
  <["zz-notes.json" := FileText "not a session"]> three_sessions.




(** A folder in which the session of the running process is already
    saved, empty. *)
Definition saved_empty : gmap string file :=
  <[session_file started := FileJson (session_record "gpt-4" [] 0 0)]> ∅.

(** A non-interactive start with one context file. *)
Definition piped_args : Args :=
  mkArgs [("notes.md", "Use tabs.")] None None false None true false repo.

(** The configuration of a non-interactive run. *)
Definition piped_config : Config :=
  mkConfig "sk-test" "gpt-4" (JNum 1) None false true false.




End Sample.

(** * Properties *)

(** ** Reading a turn *)

Section Turn.

Context (env : Env) (config : Config) (seagoat_address repo : string).

Lemma lower_app (a b : string) : Py.lower (a +:+ b) = Py.lower a +:+ Py.lower b.
Proof.
  induction a as [|c a IH]; [done|].
  change (Py.lower (String c (a +:+ b)) =
          String (Py.lower_char c) (Py.lower a +:+ Py.lower b)).
  cbn [Py.lower]. by rewrite IH.
Qed.

(** The text that is compared with the two sentinels starts with the
    preamble of the template, whatever the utterance. *)
Lemma augmented_not_quit (context message : string) :
  Py.lower (augmented context message) ≠ "/q".
Proof. unfold augmented. rewrite lower_app. discriminate. Qed.

Lemma augmented_not_empty (context message : string) :
  Py.lower (augmented context message) ≠ EmptyString.
Proof. unfold augmented. rewrite lower_app. discriminate. Qed.

(** Reading the utterance touches standard input and the count of
    prompts only. *)
Lemma read_message_frame (s s1 : State) (r : exn + string) :
  read_message env config s = (r, s1) →
  messages s1 = messages s ∧ prompt_tokens s1 = prompt_tokens s ∧
  completion_tokens s1 = completion_tokens s ∧
  session_history s1 = session_history s ∧ posted s1 = posted s ∧
  logger_level s1 = logger_level s ∧ output s1 = output s.
Proof.
  unfold read_message, sys_stdin_read, prompt, bind, gets, modify, lift, ret.
  destruct (non_interactive config); cbn.
  - intros [= <- <-]. done.
  - destruct (session_prompt env (prompted s)); intros [= <- <-]; done.
Qed.

(** A turn whose utterance is read and whose context is retrieved
    appends the user message and goes on to the request. *)
Lemma start_prompt_request (s s1 : State) (message context : string) :
  read_message env config s = (inr message, s1) →
  get_context_from_seagoat env seagoat_address message repo = inr context →
  start_prompt env config seagoat_address repo s =
    let ms := messages s1 ++ [user_message (augmented context message)] in
    bind (try_except (post env (build_request config ms)) post_handler)
         (dispatch env config) (with_messages ms s1).
Proof.
  intros Hread Hctx. unfold start_prompt.
  unfold bind at 1. rewrite Hread.
  unfold bind at 1, lift at 1. rewrite Hctx. cbv zeta.
  rewrite (bool_decide_eq_false_2 _ (augmented_not_quit _ _)).
  rewrite (bool_decide_eq_false_2 _ (augmented_not_empty _ _)).
  reflexivity.
Qed.

End Turn.

(** ** Outcomes of the remote call *)

Ltac run :=
  repeat (unfold bind, ret, raise, lift, gets, modify, when, emit, logger_error,
            logger_error_value, logger_info, logger_log, messages_append,
            try_except; cbn).

Section Outcomes.

Context (env : Env) (config : Config) (seagoat_address repo : string).

Lemma logger_log_frame (lvl : level) (e : event) (s : State) :
  ∃ o, logger_log lvl e s = (inr (), with_output o s).
Proof.
  run. case_bool_decide; run.
  - by eexists.
  - exists (output s). by destruct s.
Qed.

(** A record at level [ERROR] passes whatever the level of the logger. *)
Lemma logger_error_run (text : string) (s : State) :
  logger_error text s = (inr (), with_output (output s ++ [Logged ERROR text]) s).
Proof.
  unfold logger_error, logger_log. run.
  rewrite bool_decide_eq_true_2; [done|]. destruct (logger_level s); cbn; lia.
Qed.

Lemma logger_error_value_run (v : json) (s : State) :
  logger_error_value v s =
    (inr (), with_output (output s ++ [LoggedValue ERROR v]) s).
Proof.
  unfold logger_error_value, logger_log. run.
  rewrite bool_decide_eq_true_2; [done|]. destruct (logger_level s); cbn; lia.
Qed.

Lemma getitem_error (v : json) (k : string) (e : exn) :
  Py.getitem v k = inl e → value_error e = true.
Proof. unfold Py.getitem. repeat case_match; by intros [= <-]. Qed.

Lemma getitem0_error (v : json) (e : exn) :
  Py.getitem0 v = inl e → value_error e = true.
Proof. unfold Py.getitem0. repeat case_match; by intros [= <-]. Qed.

Lemma has_error (k : string) (v : json) (e : exn) :
  Py.has k v = inl e → value_error e = true.
Proof. unfold Py.has. repeat case_match; by intros [= <-]. Qed.

Lemma strip_method_error (v : json) (e : exn) :
  Py.strip_method v = inl e → value_error e = true.
Proof. unfold Py.strip_method. repeat case_match; by intros [= <-]. Qed.

Lemma add_error (n : Z) (v : json) (e : exn) :
  Py.add n v = inl e → value_error e = true.
Proof. unfold Py.add. repeat case_match; by intros [= <-]. Qed.

Lemma value_error_uncaught (e : exn) :
  value_error e = true →
  is_KeyboardInterrupt e = false ∧ is_EOFError e = false.
Proof. by destruct e. Qed.

(** [case 400] ends the turn with an exception that is not
    [KeyboardInterrupt], and touches the terminal only. *)
Lemma case_400_frame (r : Response) (s s' : State) (res : exn + unit) :
  case_400 r s = (res, s') →
  same_conversation s s' ∧ ∃ e, res = inl e ∧ is_KeyboardInterrupt e = false.
Proof.
  unfold case_400, r_json, bind, lift, ret, raise. cbv beta.
  repeat (case_match; simplify_eq; cbv beta; rewrite ?logger_error_run in * );
    intros [= <- <-].
  all: split; [done|]; eexists; split; [reflexivity|]; try done.
  all: eapply value_error_uncaught; eauto using getitem_error, has_error.
Qed.

(** [case _] does the same. *)
Lemma case_other_frame (r : Response) (s s' : State) (res : exn + unit) :
  case_other r s = (res, s') →
  same_conversation s s' ∧ ∃ e, res = inl e ∧ is_KeyboardInterrupt e = false.
Proof.
  unfold case_other, r_json, bind, raise, ret. cbv beta.
  rewrite logger_error_run.
  destruct (json_body r); cbv beta iota; rewrite ?logger_error_value_run;
    intros [= <- <-]; (split; [done|]); eexists; split; done.
Qed.

Lemma messages_pop_snoc (s : State) (ms : list json) (m : json) :
  messages s = ms ++ [m] → messages_pop s = (inr (), with_messages ms s).
Proof.
  intros E. unfold messages_pop. rewrite E.
  rewrite removelast_last. by destruct ms.
Qed.

Lemma post_run (req : Request) (s : State) :
  post env req s =
    (requests_post env (length (posted s)) req, with_posted (posted s ++ [req]) s).
Proof. reflexivity. Qed.

Lemma case_retry_rolls_back {A} (text : string) (s : State) (ms : list json) (m : json) :
  messages s = ms ++ [m] →
  ∃ o, case_retry (A:=A) text s =
         (inl KeyboardInterrupt, with_output o (with_messages ms s)).
Proof.
  intros E. unfold case_retry, logger_error.
  destruct (logger_log_frame ERROR (Logged ERROR text) s) as [o Ho].
  unfold bind at 1. rewrite Ho.
  unfold bind at 1. rewrite (messages_pop_snoc _ ms m) by done.
  exists o. done.
Qed.

(** C2. A turn whose remote call fails in a retryable way (connection
    error, timeout, or status 429, 500, 502 or 503) sends the history
    with the provisional user message, then takes that one message back:
    the message sequence, both token counters and the session folder are
    what they were before the turn, and the turn raises
    [KeyboardInterrupt], on which [main] prompts again. *)
Theorem retryable_failure_rolls_back (s s1 : State) (message context : string) :
  read_message env config s = (inr message, s1) →
  get_context_from_seagoat env seagoat_address message repo = inr context →
  retryable (requests_post env (length (posted s))
               (turn_request config (messages s) context message)) = true →
  ∃ s', start_prompt env config seagoat_address repo s = (inl KeyboardInterrupt, s') ∧
        posted s' = posted s ++ [turn_request config (messages s) context message] ∧
        messages s' = messages s ∧
        length (messages s') = length (messages s) ∧
        prompt_tokens s' = prompt_tokens s ∧
        completion_tokens s' = completion_tokens s ∧
        session_history s' = session_history s.
Proof.
  intros Hread Hctx Hretry.
  destruct (read_message_frame _ _ _ _ _ Hread) as (Hm & Hp & Hc & Hf & Hq & _ & _).
  rewrite (start_prompt_request _ _ _ _ _ _ _ _ Hread Hctx). cbv zeta.
  unfold bind at 1, try_except. rewrite post_run. cbn [posted with_messages].
  rewrite Hq, Hm. fold (turn_request config (messages s) context message).
  set (req := turn_request config (messages s) context message) in *.
  set (sp := with_posted _ _).
  assert (Hsp : messages sp = messages s ++ [user_message (augmented context message)])
    by done.
  destruct (requests_post env (length (posted s)) req) as [e|r] eqn:E; cbn in Hretry.
  - unfold post_handler.
    destruct (isinstance_ConnectionError e);
      [ | destruct (isinstance_Timeout e); [ | done ] ].
    all: edestruct (case_retry_rolls_back (A:=Response)) as [o ->]; [exact Hsp|].
    all: eexists; split; [reflexivity|]; cbn; rewrite ?Hq; done.
  - apply bool_decide_eq_true_1 in Hretry.
    unfold dispatch.
    assert (Hs : (status_code r = 429 ∨ status_code r = 500 ∨
                  status_code r = 502 ∨ status_code r = 503)%Z)
      by (revert Hretry; rewrite !elem_of_cons, elem_of_nil; tauto).
    destruct Hs as [-> | [-> | [-> | ->]]]; cbn.
    all: edestruct (case_retry_rolls_back (A:=unit)) as [o ->]; [exact Hsp|].
    all: eexists; split; [reflexivity|]; cbn; rewrite ?Hq; done.
Qed.

(** C1. A turn whose remote call answers 200 with a completion leaves
    the message sequence longer by exactly two (the user message, put
    there before the call, then the assistant message of the response),
    adds to each counter exactly the amount the usage field reports, and
    has written the session record, with the new messages and the new
    counters, when it hands control back: by returning, or in
    non-interactive mode by raising [EOFError]. *)
Theorem success_appends_counts_and_saves (s s1 : State) (message context : string)
    (r : Response) (message_response : json) (p c : Z) :
  read_message env config s = (inr message, s1) →
  get_context_from_seagoat env seagoat_address message repo = inr context →
  requests_post env (length (posted s))
    (turn_request config (messages s) context message) = inr r →
  status_code r = 200%Z →
  completion r message_response p c →
  ∃ s', start_prompt env config seagoat_address repo s =
          (if non_interactive config then inl EOFError else inr (), s') ∧
        posted s' = posted s ++ [turn_request config (messages s) context message] ∧
        messages s' = messages s ++
          [user_message (augmented context message); message_response] ∧
        length (messages s') = length (messages s) + 2 ∧
        prompt_tokens s' = (prompt_tokens s + p)%Z ∧
        completion_tokens s' = (completion_tokens s + c)%Z ∧
        session_history s' =
          <[SAVE_FILE env := FileJson (session_record (model config) (messages s')
                               (prompt_tokens s') (completion_tokens s'))]>
            (session_history s).
Proof.
  intros Hread Hctx Hpost Hstatus
    (response & choices & choice & usage & text & Hb & H1 & H2 & H3 & H4 & H5 & H6 & H7).
  destruct (read_message_frame _ _ _ _ _ Hread) as (Hm & Hp & Hc & Hf & Hq & _ & _).
  rewrite (start_prompt_request _ _ _ _ _ _ _ _ Hread Hctx). cbv zeta.
  unfold bind at 1, try_except. rewrite post_run. cbn [posted with_messages].
  rewrite Hq, Hm. fold (turn_request config (messages s) context message).
  rewrite Hpost. unfold dispatch. rewrite Hstatus. cbn [Z.eqb Pos.eqb].
  unfold case_200, r_json. rewrite Hb.
  run. rewrite H1. run. rewrite H2. run. rewrite H3. run. rewrite H4. run.
  rewrite H5, H6, H7.
  destruct (non_interactive config), (markdown config); cbn.
  all: eexists; split; [reflexivity|]; cbn.
  all: rewrite ?Hp, ?Hc, ?Hf, <- ?app_assoc, ?length_app; cbn.
  all: repeat split; try done; lia.
Qed.

(** Conversely, a turn answered 200 hands control back (by returning, or
    by [EOFError]) only after it has appended the two messages, added what
    the usage field holds to the counters, and saved the record. *)
Lemma status_200_hands_back_after_saving (s s1 s' : State) (message context : string)
    (r : Response) (res : exn + unit) :
  read_message env config s = (inr message, s1) →
  get_context_from_seagoat env seagoat_address message repo = inr context →
  requests_post env (length (posted s))
    (turn_request config (messages s) context message) = inr r →
  status_code r = 200%Z →
  start_prompt env config seagoat_address repo s = (res, s') →
  res = inr () ∨ res = inl EOFError →
  ∃ message_response used_prompt used_completion,
    messages s' = messages s ++
      [user_message (augmented context message); message_response] ∧
    Py.add (prompt_tokens s) used_prompt = inr (prompt_tokens s') ∧
    Py.add (completion_tokens s) used_completion = inr (completion_tokens s') ∧
    session_history s' =
      <[SAVE_FILE env := FileJson (session_record (model config) (messages s')
                           (prompt_tokens s') (completion_tokens s'))]>
        (session_history s).
Proof.
  intros Hread Hctx Hpost Hstatus Hstart Hres.
  destruct (read_message_frame _ _ _ _ _ Hread) as (Hm & Hp & Hc & Hf & Hq & _ & _).
  rewrite (start_prompt_request _ _ _ _ _ _ _ _ Hread Hctx) in Hstart.
  cbv zeta in Hstart.
  unfold bind at 1, try_except in Hstart. rewrite post_run in Hstart.
  cbn [posted with_messages] in Hstart. rewrite Hq, Hm in Hstart.
  fold (turn_request config (messages s) context message) in Hstart.
  rewrite Hpost in Hstart. unfold dispatch in Hstart.
  rewrite Hstatus in Hstart. cbn [Z.eqb Pos.eqb] in Hstart.
  unfold case_200, r_json in Hstart.
  assert (Hno : ∀ e, value_error e = true → res = inl e → False).
  { intros e He ->. destruct Hres as [[=] | [= ->]]; done. }
  revert Hstart.
  destruct (json_body r) as [response|]; run;
    [|intros [= <- <-]; by destruct Hres].
  destruct (non_interactive config), (markdown config); run.
  all: repeat match goal with
         | |- context [match ?x with inl _ => _ | inr _ => _ end] =>
             destruct x eqn:?; run
         end.
  all: intros [= <- <-].
  all: try (exfalso; eapply Hno; [|reflexivity];
            solve [eauto using getitem_error, getitem0_error, strip_method_error,
                     add_error]).
  all: eexists _, _, _; cbn.
  all: rewrite ?Hp, ?Hc, ?Hf, <- ?app_assoc; cbn.
  all: repeat split; eauto.
  all: rewrite <- ?Hp, <- ?Hc; eauto.
Qed.

(** A turn that raises anything but [KeyboardInterrupt] is the last one. *)
Lemma loop_last_turn (fuel : nat) (s s' : State) (e : exn) :
  start_prompt env config seagoat_address repo s = (inl e, s') →
  is_KeyboardInterrupt e = false →
  loop env (S fuel) config seagoat_address repo s =
    (if is_EOFError e then Break else Uncaught e, s').
Proof. intros H Hk. cbn [loop]. rewrite H, Hk. by destruct (is_EOFError e). Qed.

(** C5, as the code has it. A turn whose remote call answers with a
    status that is neither 200 nor one of 429, 500, 502, 503 (so 400, with
    or without the context-length code, 401 and every unrecognised
    status) ends the session: the loop stops after it. The provisional
    user message is not taken back and is the last message in memory at
    that point; but the turn writes nothing to the session folder, which
    is as it was before the turn, and neither counter moves. *)
Theorem fatal_failure_keeps_message_in_memory_only
    (s s1 : State) (message context : string) (r : Response) :
  read_message env config s = (inr message, s1) →
  get_context_from_seagoat env seagoat_address message repo = inr context →
  requests_post env (length (posted s))
    (turn_request config (messages s) context message) = inr r →
  status_code r ∉ [200; 429; 500; 502; 503]%Z →
  ∃ e s', start_prompt env config seagoat_address repo s = (inl e, s') ∧
          (∀ fuel, loop env (S fuel) config seagoat_address repo s =
                     (if is_EOFError e then Break else Uncaught e, s')) ∧
          messages s' = messages s ++ [user_message (augmented context message)] ∧
          session_history s' = session_history s ∧
          prompt_tokens s' = prompt_tokens s ∧
          completion_tokens s' = completion_tokens s.
Proof.
  intros Hread Hctx Hpost Hstatus.
  destruct (read_message_frame _ _ _ _ _ Hread) as (Hm & Hp & Hc & Hf & Hq & _ & _).
  pose proof (start_prompt_request _ _ _ _ _ _ _ _ Hread Hctx) as Hstart.
  cbv zeta in Hstart.
  unfold bind at 1, try_except in Hstart. rewrite post_run in Hstart.
  cbn [posted with_messages] in Hstart. rewrite Hq, Hm in Hstart.
  fold (turn_request config (messages s) context message) in Hstart.
  rewrite Hpost in Hstart.
  set (sp := with_posted _ _) in Hstart.
  assert (∃ e s', dispatch env config r sp = (inl e, s') ∧
                  same_conversation sp s' ∧ is_KeyboardInterrupt e = false)
    as (e & s' & Hd & (Hm' & Hp' & Hc' & Hf' & _) & Hk).
  { rewrite !not_elem_of_cons in Hstatus.
    destruct Hstatus as (H200 & H429 & H500 & H502 & H503 & _).
    unfold dispatch.
    rewrite (proj2 (Z.eqb_neq _ _) H200), (proj2 (Z.eqb_neq _ _) H429),
      (proj2 (Z.eqb_neq _ _) H500), (proj2 (Z.eqb_neq _ _) H502),
      (proj2 (Z.eqb_neq _ _) H503). cbn [orb].
    destruct (status_code r =? 400)%Z; [|destruct (status_code r =? 401)%Z].
    - destruct (case_400 r sp) as [res s'] eqn:E.
      destruct (case_400_frame _ _ _ _ E) as (Hsame & e & -> & Hk). eauto.
    - unfold bind, raise. rewrite logger_error_run. cbv beta iota.
      eexists _, _. split; [reflexivity|]. done.
    - destruct (case_other r sp) as [res s'] eqn:E.
      destruct (case_other_frame _ _ _ _ E) as (Hsame & e & -> & Hk). eauto. }
  rewrite Hd in Hstart. exists e, s'. split; [done|].
  split; [intros fuel; by apply loop_last_turn|].
  rewrite Hm', Hf', Hp', Hc'. cbn. by rewrite Hf, Hp, Hc.
Qed.

(** C4, as the code has it. When the retrieval of the context raises,
    the turn raises the same exception at once: no user message is
    appended, no request is sent, the counters and the session folder
    are untouched; and unless the exception is one of the two that
    [main] catches, it ends the process. *)
Theorem context_failure_aborts_turn (s s1 : State) (message : string) (e : exn) :
  read_message env config s = (inr message, s1) →
  get_context_from_seagoat env seagoat_address message repo = inl e →
  start_prompt env config seagoat_address repo s = (inl e, s1) ∧
  same_conversation s s1 ∧
  (is_KeyboardInterrupt e = false → is_EOFError e = false →
   ∀ fuel, loop env (S fuel) config seagoat_address repo s = (Uncaught e, s1)).
Proof.
  intros Hread Hctx.
  assert (Hstart : start_prompt env config seagoat_address repo s = (inl e, s1)).
  { unfold start_prompt. unfold bind at 1. rewrite Hread.
    unfold bind at 1, lift. by rewrite Hctx. }
  split; [done|]. split.
  - destruct (read_message_frame _ _ _ _ _ Hread) as (? & ? & ? & ? & ? & _).
    done.
  - intros Hk He fuel. rewrite (loop_last_turn _ _ _ _ Hstart Hk). by rewrite He.
Qed.

End Outcomes.

(** ** Steps that send nothing *)

Lemma quiet_ret {A} (a : A) : sends_nothing (ret a).
Proof. by intros s res s' [= <- <-]. Qed.

Lemma quiet_raise {A} (e : exn) : sends_nothing (raise (A:=A) e).
Proof. by intros s res s' [= <- <-]. Qed.

Lemma quiet_lift {A} (r : exn + A) : sends_nothing (lift r).
Proof. by intros s res s' [= <- <-]. Qed.

Lemma quiet_gets {A} (f : State → A) : sends_nothing (gets f).
Proof. by intros s res s' [= <- <-]. Qed.

Lemma quiet_modify (f : State → State) :
  (∀ s, posted (f s) = posted s) → sends_nothing (modify f).
Proof. intros Hf s res s' [= <- <-]. apply Hf. Qed.

Lemma quiet_bind {A B} (m : Run A) (k : A → Run B) :
  sends_nothing m → (∀ a, sends_nothing (k a)) → sends_nothing (bind m k).
Proof.
  intros Hm Hk s res s'. unfold bind.
  destruct (m s) as [[e|a] s0] eqn:E.
  - intros [= <- <-]. eauto.
  - intros Hka. rewrite (Hk _ _ _ _ Hka). eauto.
Qed.

Lemma quiet_when (b : bool) (m : Run unit) :
  sends_nothing m → sends_nothing (when b m).
Proof. destruct b; [done|]. intros _. apply quiet_ret. Qed.

Lemma quiet_if {A} (b : bool) (m1 m2 : Run A) :
  sends_nothing m1 → sends_nothing m2 → sends_nothing (if b then m1 else m2).
Proof. by destruct b. Qed.

Lemma quiet_messages_pop : sends_nothing messages_pop.
Proof.
  intros s res s'. unfold messages_pop.
  destruct (messages s); by intros [= <- <-].
Qed.

Lemma quiet_r_json (r : Response) : sends_nothing (r_json r).
Proof. unfold r_json. destruct (json_body r); [apply quiet_ret|apply quiet_raise]. Qed.

Ltac quiet :=
  repeat first
    [ apply quiet_bind; [|intros ?]
    | apply quiet_ret | apply quiet_raise | apply quiet_lift | apply quiet_gets
    | apply quiet_when | apply quiet_if | apply quiet_messages_pop
    | apply quiet_r_json
    | apply quiet_modify; intros ?; reflexivity
    | progress unfold emit, logger_log, logger_error, logger_error_value,
        logger_info, messages_append, case_retry, case_400, case_other,
        case_200, save_history ].

Lemma quiet_dispatch (env : Env) (config : Config) (r : Response) :
  sends_nothing (dispatch env config r).
Proof.
  unfold dispatch. quiet.
Qed.

Lemma quiet_case_retry {A} (text : string) : sends_nothing (case_retry (A:=A) text).
Proof. quiet. Qed.

(** Whatever the utterance, the two sentinels included, a turn that has
    its context sends the request, with the user message appended. *)
Lemma every_utterance_is_sent (env : Env) (config : Config)
    (seagoat_address repo : string) (s s1 : State) (message context : string) :
  read_message env config s = (inr message, s1) →
  get_context_from_seagoat env seagoat_address message repo = inr context →
  ∃ res s', start_prompt env config seagoat_address repo s = (res, s') ∧
            posted s' = posted s ++ [turn_request config (messages s) context message].
Proof.
  intros Hread Hctx.
  destruct (read_message_frame _ _ _ _ _ Hread) as (Hm & _ & _ & _ & Hq & _ & _).
  rewrite (start_prompt_request _ _ _ _ _ _ _ _ Hread Hctx). cbv zeta.
  unfold bind at 1, try_except. rewrite post_run. cbn [posted with_messages].
  rewrite Hq, Hm. fold (turn_request config (messages s) context message).
  set (sp := with_posted _ _).
  destruct (requests_post env _ _) as [e|r].
  - unfold post_handler.
    destruct (isinstance_ConnectionError e); [|destruct (isinstance_Timeout e)].
    3: by eexists _, _.
    all: edestruct (case_retry_rolls_back (A:=Response)) as [o ->]; [done|].
    all: by eexists _, _.
  - destruct (dispatch env config r sp) as [res s'] eqn:E.
    exists res, s'. split; [done|]. by rewrite (quiet_dispatch _ _ _ _ _ _ E).
Qed.

(** ** Starting up *)


Lemma bind_run {A B} (m : Run A) (k : A → Run B) (s s1 : State) (a : A) :
  m s = (inr a, s1) → bind m k s = k a s1.
Proof. intros E. unfold bind. by rewrite E. Qed.

Lemma with_output_id (s : State) : with_output (output s) s = s.
Proof. by destruct s. Qed.

Lemma reports_ret : reports (ret ()).
Proof. intros s. exists []. by rewrite app_nil_r, with_output_id. Qed.

Lemma reports_emit (e : event) : reports (emit e).
Proof. intros s. by exists [e]. Qed.

Lemma reports_when (b : bool) (m : Run unit) : reports m → reports (when b m).
Proof. destruct b; [done|]. intros _. apply reports_ret. Qed.

Lemma reports_logger_log (lvl : level) (e : event) : reports (logger_log lvl e).
Proof.
  intros s. unfold logger_log. rewrite (bind_run _ _ s s (logger_level s)) by done.
  apply reports_when, reports_emit.
Qed.

Lemma reports_seq (m k : Run unit) : reports m → reports k → reports (m ;; k).
Proof.
  intros Hm Hk s. destruct (Hm s) as [o1 E1].
  rewrite (bind_run _ _ _ _ _ E1). destruct (Hk (with_output (output s ++ o1) s)) as [o2 ->].
  exists (o1 ++ o2). cbn. by rewrite app_assoc.
Qed.






(** [load_history_data] is [open], then [json.loads], on the folder as
    it is; it changes nothing. *)
Lemma load_history_data_run (env : Env) (history_file : string) (s : State) :
  load_history_data env history_file s =
    (match open_ env (session_history s) history_file with
     | inl e => inl e
     | inr f => json_loads f
     end, s).
Proof.
  unfold load_history_data, bind, gets, lift, ret.
  destruct (open_ env (session_history s) history_file) as [e|f]; [done|].
  by destruct (json_loads f).
Qed.

Lemma open_missing_file_name (env : Env) (name : string) :
  file_name name = true → open_missing env name = inl FileNotFoundError.
Proof.
  unfold file_name, open_missing. rewrite !andb_true_iff, !negb_true_iff.
  intros [[[-> ->] ->] Hlen]. apply bool_decide_eq_true in Hlen.
  rewrite bool_decide_eq_false_2; [done|lia].
Qed.


(** The restore of a file that is not there: the history is cleared,
    then the error is reported. *)
Lemma restore_session_missing (env : Env) (restore : string) (s : State) :
  session_history s !! restore_file (session_history s) restore = None →
  file_name (restore_file (session_history s) restore) = true →
  restore_session env restore s =
    (inr (), with_output
       (output s ++ [Logged ERROR ("[red bold]File " +:+
          restore_file (session_history s) restore +:+ " not found")])
       (with_messages [] s)).
Proof.
  intros Hnone Hname. unfold restore_session.
  rewrite (bind_run _ _ s s (session_history s)) by done.
  unfold try_except, messages_clear.
  rewrite (bind_run _ _ s (with_messages [] s) ()) by done.
  unfold bind at 1. rewrite load_history_data_run. cbn [session_history with_messages].
  unfold open_. rewrite Hnone, open_missing_file_name by done.
  cbn [raise is_FileNotFoundError]. by rewrite logger_error_run.
Qed.



(** ** The session folder *)

Lemma append_cons (c : ascii) (a b : string) :
  String c a +:+ b = String c (a +:+ b).
Proof. reflexivity. Qed.

Lemma append_empty_r (a : string) : a +:+ EmptyString = a.
Proof. induction a as [|c a IH]; [done|]. by rewrite append_cons, IH. Qed.

Lemma endswith_refl (s : string) : Py.endswith s s = true.
Proof. destruct s; cbn; by rewrite bool_decide_eq_true_2. Qed.

Lemma endswith_app_l (a s suffix : string) :
  Py.endswith s suffix = true → Py.endswith (a +:+ s) suffix = true.
Proof.
  intros H. induction a as [|c a IH]; [done|].
  rewrite append_cons. cbn. rewrite IH. apply orb_true_r.
Qed.

Lemma endswith_session_file (t : string) : Py.endswith (session_file t) ".json" = true.
Proof. unfold session_file. do 2 apply endswith_app_l. apply endswith_refl. Qed.

(** A stretch of characters, none of them the first of [old], is copied. *)
Lemma replace_from_copy (o : ascii) (old' new t rest : string) :
  (∀ c, c ∈ String.list_ascii_of_string t → c ≠ o) →
  Py.replace_from 0 (String o old') new (t +:+ rest) =
    t +:+ Py.replace_from 0 (String o old') new rest.
Proof.
  induction t as [|c t IH]; intros Hne; [done|].
  rewrite !append_cons. cbn [Py.replace_from].
  assert (Py.startswith (String c (t +:+ rest)) (String o old') = false) as ->.
  { unfold Py.startswith. cbn [Py.strip_prefix].
    rewrite decide_False; [by apply bool_decide_eq_false_2; intros [? ?]|].
    intros ->. eapply Hne; [|done]. cbn. left. }
  f_equal. apply IH. intros c' Hc'. apply Hne. cbn. by right.
Qed.

Lemma strip_prefix_app (p s : string) : Py.strip_prefix p (p +:+ s) = Some s.
Proof.
  induction p as [|c p IH]; [done|].
  rewrite append_cons. cbn. by rewrite decide_True.
Qed.

Lemma replace_from_skip (p old new s : string) :
  Py.replace_from (String.length p) old new (p +:+ s) = Py.replace_from 0 old new s.
Proof. induction p as [|c p IH]; [done|]. by rewrite append_cons. Qed.

(** An occurrence of [old] at the start is replaced, and the search goes
    on after it. *)
Lemma replace_from_match (o : ascii) (old' new rest : string) :
  Py.replace_from 0 (String o old') new (String o old' +:+ rest) =
    new +:+ Py.replace_from 0 (String o old') new rest.
Proof.
  rewrite append_cons. cbn [Py.replace_from].
  assert (Py.startswith (String o (old' +:+ rest)) (String o old') = true) as ->.
  { unfold Py.startswith. rewrite <- append_cons, strip_prefix_app.
    by apply bool_decide_eq_true_2. }
  f_equal.
  replace (String.length (String o old') - 1) with (String.length old')
    by (cbn [String.length]; lia).
  apply replace_from_skip.
Qed.

Lemma timestamp_chars_spec (t : string) (c : ascii) :
  timestamp_chars t = true → c ∈ String.list_ascii_of_string t →
  timestamp_char c = true.
Proof.
  induction t as [|c' t IH]; cbn; [by intros _ ?%elem_of_nil|].
  intros [Hc Ht]%andb_true_iff [->|Hin]%elem_of_cons; auto.
Qed.

(** The two replacements give back the timestamp of a session file. *)
Lemma timestamp_of_session_file (t : string) :
  timestamp_chars t = true → timestamp_of (session_file t) = t.
Proof.
  intros Ht. unfold timestamp_of, session_file, Py.replace.
  rewrite (replace_from_match "c" "hatgpt-session-" "" (t +:+ ".json")).
  change ("" +:+ ?x) with x.
  rewrite (replace_from_copy "c" "hatgpt-session-" "" t ".json").
  2:{ intros c Hc ->. by apply (timestamp_chars_spec _ _ Ht) in Hc. }
  change (Py.replace_from 0 "chatgpt-session-" "" ".json") with ".json".
  rewrite (replace_from_copy "." "json" "" t ".json").
  2:{ intros c Hc ->. by apply (timestamp_chars_spec _ _ Ht) in Hc. }
  change (Py.replace_from 0 ".json" "" ".json") with "".
  apply append_empty_r.
Qed.

Lemma is_session_file_spec (f : string) :
  is_session_file f = true ↔ ∃ t, timestamp_chars t = true ∧ f = session_file t.
Proof.
  unfold is_session_file. rewrite andb_true_iff, bool_decide_eq_true. split.
  - intros [Ht Hf]. eauto.
  - intros (t & Ht & ->). by rewrite timestamp_of_session_file.
Qed.

(** In a sorted list, nothing is above the last element. *)
Lemma sorted_last_max {A} (R : relation A) `{!Reflexive R} (l : list A) (x y : A) :
  StronglySorted R l → last l = Some x → y ∈ l → R y x.
Proof.
  intros Hs [l' ->]%last_Some [Hy | ->%list_elem_of_singleton]%elem_of_app; [|done].
  eapply StronglySorted_app_1_elem_of; [done..|]. by apply list_elem_of_singleton.
Qed.

(** The timestamps [get_last_save_file] sorts: those of the session
    files of the folder. *)
Lemma get_last_save_file_latest (folder : gmap string file) (t : string) :
  only_sessions folder = true →
  timestamp_chars t = true → session_file t ∈ dom folder →
  ∃ latest, get_last_save_file folder = Some latest ∧
            timestamp_chars latest = true ∧
            session_file latest ∈ dom folder ∧
            ∀ t', timestamp_chars t' = true → session_file t' ∈ dom folder →
                  String.le t' latest.
Proof.
  intros Honly Ht Hin. unfold get_last_save_file.
  set (files := filter _ _).
  assert (Hfiles : ∀ f, f ∈ files ↔
            ∃ t, timestamp_chars t = true ∧ f = session_file t ∧ f ∈ dom folder).
  { intros f. unfold files. rewrite list_elem_of_filter. unfold os_listdir.
    rewrite elem_of_elements. split.
    - intros [Hjson Hdom]. unfold only_sessions in Honly.
      rewrite forallb_forall in Honly.
      specialize (Honly f). rewrite Hjson in Honly. cbn in Honly.
      destruct (proj1 (is_session_file_spec f)) as (t0 & Ht0 & ->).
      { apply Honly. apply list_elem_of_In. unfold os_listdir.
        by apply elem_of_elements. }
      eauto.
    - intros (t0 & Ht0 & -> & Hdom). split; [|done].
      apply endswith_session_file. }
  set (ts := (λ f, Py.replace (Py.replace f "chatgpt-session-" "") ".json" "") <$> files).
  assert (Hts : ∀ t', t' ∈ ts ↔ timestamp_chars t' = true ∧ session_file t' ∈ dom folder).
  { intros t'. unfold ts. rewrite list_elem_of_fmap. split.
    - intros (f & -> & (t0 & Ht0 & -> & Hdom)%Hfiles).
      fold (timestamp_of (session_file t0)).
      by rewrite timestamp_of_session_file.
    - intros [Ht' Hdom]. exists (session_file t'). split.
      + fold (timestamp_of (session_file t')). by rewrite timestamp_of_session_file.
      + apply Hfiles. eauto. }
  destruct files as [|f0 files'] eqn:Efiles.
  { exfalso. eapply elem_of_nil, Hfiles. eauto. }
  assert (Hperm : merge_sort String.le ts ≡ₚ ts) by apply merge_sort_Permutation.
  assert (Hsorted : StronglySorted String.le (merge_sort String.le ts))
    by apply (StronglySorted_merge_sort _).
  destruct (last (merge_sort String.le ts)) as [latest|] eqn:Elast.
  - exists latest. split; [done|].
    assert (Hl : latest ∈ ts).
    { rewrite <- Hperm. by eapply last_Some_elem_of. }
    apply Hts in Hl as [Hl1 Hl2]. repeat split; try done.
    intros t' Ht' Hdom'. eapply sorted_last_max; [apply _|done..|].
    rewrite Hperm. by apply Hts.
  - apply last_None in Elast. exfalso.
    assert (t ∈ ts) as Hin' by by apply Hts.
    rewrite <- Hperm, Elast in Hin'. by apply elem_of_nil in Hin'.
Qed.

Lemma for_each_append (ms : list json) (s : State) :
  for_each messages_append ms s = (inr (), with_messages (messages s ++ ms) s).
Proof.
  revert s. induction ms as [|m ms IH]; intros s.
  - cbn. unfold ret. rewrite app_nil_r. by destruct s.
  - cbn [for_each]. rewrite (bind_run _ _ s (with_messages (messages s ++ [m]) s) ())
      by done.
    rewrite IH. cbn. by rewrite <- app_assoc.
Qed.

(** The restore of a record that [save_history] wrote: its messages
    replace the history and its counts are added to the counters. *)
Lemma restore_session_record (env : Env) (restore m : string) (ms : list json)
    (p c : Z) (s : State) :
  session_history s !! restore_file (session_history s) restore =
    Some (FileJson (session_record m ms p c)) →
  ∃ o, restore_session env restore s =
         (inr (), with_output (output s ++ o)
                    (with_completion_tokens (completion_tokens s + c)
                       (with_prompt_tokens (prompt_tokens s + p)
                          (with_messages ms s)))).
Proof.
  intros Hfile. unfold restore_session.
  rewrite (bind_run _ _ s s (session_history s)) by done.
  unfold try_except, messages_clear.
  rewrite (bind_run _ _ s (with_messages [] s) ()) by done.
  rewrite (bind_run _ _ (with_messages [] s) (with_messages [] s)
             (session_record m ms p c)).
  2:{ rewrite load_history_data_run. cbn [session_history with_messages].
      unfold open_. by rewrite Hfile. }
  rewrite (bind_run _ _ _ (with_messages [] s) (JList ms)) by done.
  rewrite (bind_run _ _ _ (with_messages [] s) ms) by done.
  rewrite (bind_run _ _ _ (with_messages ms s) ())
    by (rewrite for_each_append; reflexivity).
  rewrite (bind_run _ _ _ (with_messages ms s) (JNum p)) by done.
  rewrite (bind_run _ _ _ (with_messages ms s) (prompt_tokens s)) by done.
  rewrite (bind_run _ _ _ (with_messages ms s) (prompt_tokens s + p)%Z) by done.
  rewrite (bind_run _ _ _ (with_prompt_tokens (prompt_tokens s + p) (with_messages ms s)) ())
    by done.
  rewrite (bind_run _ _ _ (with_prompt_tokens (prompt_tokens s + p) (with_messages ms s))
             (JNum c)) by done.
  rewrite (bind_run _ _ _ (with_prompt_tokens (prompt_tokens s + p) (with_messages ms s))
             (completion_tokens s)) by done.
  rewrite (bind_run _ _ _ (with_prompt_tokens (prompt_tokens s + p) (with_messages ms s))
             (completion_tokens s + c)%Z) by done.
  rewrite (bind_run _ _ _
             (with_completion_tokens (completion_tokens s + c)
                (with_prompt_tokens (prompt_tokens s + p) (with_messages ms s))) ())
    by done.
  destruct (reports_logger_log INFO (Logged INFO ("Restored session: [bold green]" +:+ restore))
              (with_completion_tokens (completion_tokens s + c)
                (with_prompt_tokens (prompt_tokens s + p) (with_messages ms s))))
    as [o Ho].
  unfold logger_info. rewrite Ho. by exists o.
Qed.

Lemma restore_file_last (folder : gmap string file) (latest : string) :
  get_last_save_file folder = Some latest →
  restore_file folder "last" = session_file latest.
Proof. intros H. unfold restore_file. by rewrite bool_decide_eq_true_2, H. Qed.

Lemma restore_file_timestamp (folder : gmap string file) (t : string) :
  t ≠ "last" → restore_file folder t = session_file t.
Proof. intros H. unfold restore_file. by rewrite bool_decide_eq_false_2. Qed.


(** Three processes started at [t1], [t2] and [t3], in that order, each
    save a session into an empty folder; a fourth restores ["last"]: it
    gets the session of the third. *)
Lemma last_of_three_saves (e1 e2 e3 e4 : Env) (m1 m2 m3 : string)
    (ms1 ms2 ms3 : list json) (p1 p2 p3 c1 c2 c3 : Z) (input : string) :
  timestamp_chars (now e1) = true → timestamp_chars (now e2) = true →
  timestamp_chars (now e3) = true →
  strict String.le (now e1) (now e2) → strict String.le (now e2) (now e3) →
  ∃ s1 s2 s3 s',
    save_history e1 m1 ms1 p1 c1 (fresh ∅ input) = (inr (), s1) ∧
    save_history e2 m2 ms2 p2 c2 (fresh (session_history s1) input) = (inr (), s2) ∧
    save_history e3 m3 ms3 p3 c3 (fresh (session_history s2) input) = (inr (), s3) ∧
    restore_session e4 "last" (fresh (session_history s3) input) = (inr (), s') ∧
    messages s' = ms3 ∧ prompt_tokens s' = p3 ∧ completion_tokens s' = c3.
Proof.
  intros H1 H2 H3 [H12 _] [H23 _].
  set (folder :=
    <[session_file (now e3) := FileJson (session_record m3 ms3 p3 c3)]>
      (<[session_file (now e2) := FileJson (session_record m2 ms2 p2 c2)]>
         (<[session_file (now e1) := FileJson (session_record m1 ms1 p1 c1)]>
            (∅ : gmap string file)))).
  cut (∃ s', restore_session e4 "last" (fresh folder input) = (inr (), s') ∧
             messages s' = ms3 ∧ prompt_tokens s' = p3 ∧ completion_tokens s' = c3).
  { intros (s' & Hr & Hs'). eexists _, _, _, s'.
    split; [reflexivity|]. split; [reflexivity|]. split; [reflexivity|].
    split; [exact Hr|exact Hs']. }
  assert (Hdom : ∀ f, f ∈ dom folder ↔
            f = session_file (now e3) ∨ f = session_file (now e2) ∨
            f = session_file (now e1)).
  { intros f. unfold folder.
    rewrite !dom_insert_L, dom_empty_L, !elem_of_union, !elem_of_singleton,
      elem_of_empty.
    tauto. }
  assert (Honly : only_sessions folder = true).
  { unfold only_sessions. apply forallb_forall. intros f Hf.
    unfold os_listdir in Hf. apply list_elem_of_In, elem_of_elements, Hdom in Hf.
    apply orb_true_iff. right. apply is_session_file_spec.
    destruct Hf as [-> | [-> | ->]]; eauto. }
  destruct (get_last_save_file_latest folder (now e3) Honly H3)
    as (latest & Hget & Hchars & Hin & Hmax); [apply Hdom; by left|].
  assert (latest = now e3) as ->.
  { apply (anti_symm String.le).
    - apply Hdom in Hin.
      destruct Hin as [Hin | [Hin | Hin]];
        apply (f_equal timestamp_of) in Hin;
        rewrite !timestamp_of_session_file in Hin by done; subst latest;
        [done | done | by etrans].
    - apply Hmax; [done|]. apply Hdom. by left. }
  destruct (restore_session_record e4 "last" m3 ms3 p3 c3 (fresh folder input))
    as [o Ho].
  { cbn [session_history fresh]. rewrite (restore_file_last _ _ Hget).
    unfold folder. apply lookup_insert_eq. }
  rewrite Ho. eexists. split; [reflexivity|]. by cbn.
Qed.

(** ** The layout of the prompt *)

Lemma foldl_lineText (ls : list result_line) (acc : list string) :
  foldl (λ acc l, acc ++ [lineText l]) acc ls = acc ++ (lineText <$> ls).
Proof.
  revert acc. induction ls as [|l ls IH]; intros acc; cbn.
  - by rewrite app_nil_r.
  - rewrite IH. by rewrite <- app_assoc.
Qed.

Lemma for_block_stanza (path : string) (b : result_block) (acc : list string) :
  has_lines b = true → for_block path b acc = inr (acc ++ block_stanza path b).
Proof.
  unfold has_lines, for_block, block_stanza, stanza.
  destruct (lines b) as [|l0 ls] eqn:E; [done|]. intros _.
  destruct (last (l0 :: ls)) as [final|] eqn:El; [|by apply last_None in El].
  cbn [head from_option]. rewrite foldl_lineText.
  f_equal. by rewrite <- !app_assoc.
Qed.

Lemma for_blocks_stanzas (path : string) (bs : list result_block) (acc : list string) :
  forallb has_lines bs = true →
  for_blocks path bs acc = inr (acc ++ concat (block_stanza path <$> bs)).
Proof.
  revert acc. induction bs as [|b bs IH]; intros acc; cbn.
  - by rewrite app_nil_r.
  - intros [Hb Hbs]%andb_true_iff. rewrite for_block_stanza by done.
    rewrite IH by done. by rewrite <- app_assoc.
Qed.

Lemma for_results_stanzas (rs : list result) (acc : list string) :
  all_have_lines rs = true → for_results rs acc = inr (acc ++ stanzas rs).
Proof.
  unfold all_have_lines, stanzas.
  revert acc. induction rs as [|r rs IH]; intros acc; cbn.
  - by rewrite app_nil_r.
  - intros [Hr Hrs]%andb_true_iff. rewrite for_blocks_stanzas by done.
    rewrite IH by done. by rewrite <- app_assoc.
Qed.

(** A block without lines stops the retrieval with [IndexError]. *)
Lemma for_block_empty (path : string) (b : result_block) (acc : list string) :
  has_lines b = false → for_block path b acc = inl IndexError.
Proof.
  unfold has_lines, for_block. by destruct (lines b).
Qed.

Lemma for_blocks_without_lines (path : string) (bs : list result_block)
    (acc : list string) :
  forallb has_lines bs = false → for_blocks path bs acc = inl IndexError.
Proof.
  revert acc. induction bs as [|b bs IH]; intros acc; cbn; [done|].
  destruct (has_lines b) eqn:Hb; cbn.
  - intros Hbs. rewrite for_block_stanza by done. by apply IH.
  - intros _. by rewrite for_block_empty.
Qed.

Lemma for_results_without_lines (rs : list result) (acc : list string) :
  all_have_lines rs = false → for_results rs acc = inl IndexError.
Proof.
  unfold all_have_lines.
  revert acc. induction rs as [|r rs IH]; intros acc; cbn; [done|].
  destruct (forallb has_lines (blocks r)) eqn:Hr; cbn.
  - intros Hrs. rewrite for_blocks_stanzas by done. by apply IH.
  - intros _. by rewrite for_blocks_without_lines.
Qed.

(** The two ways in which the retrieval of the context fails: the
    SeaGOAT client raises, or one of the blocks it returns has no line. *)
Lemma get_context_unreachable (env : Env) (seagoat_address message repo : string)
    (e : exn) :
  query_server env message seagoat_address = inl e →
  get_context_from_seagoat env seagoat_address message repo = inl e.
Proof. intros H. unfold get_context_from_seagoat. by rewrite H. Qed.

Lemma get_context_malformed (env : Env) (seagoat_address message repo : string)
    (results : list result) :
  query_server env message seagoat_address = inr results →
  all_have_lines (rewrite_full_paths_to_use_local_path env repo results) = false →
  get_context_from_seagoat env seagoat_address message repo = inl IndexError.
Proof.
  intros H Hl. unfold get_context_from_seagoat.
  by rewrite H, for_results_without_lines.
Qed.

(** C6. The search service answers the utterance with blocks that all
    have lines. Then the context is the stanzas of the blocks, in the
    order received, one line after the other; and the user message that
    the turn appends and sends is the preamble of the template, the
    context, the separator, the caveat, and the utterance between double
    quotes, each on its own lines. *)
Theorem augmented_prompt_layout (env : Env) (config : Config)
    (seagoat_address repo : string) (s s1 : State) (message : string)
    (results : list result) :
  read_message env config s = (inr message, s1) →
  query_server env message seagoat_address = inr results →
  all_have_lines (rewrite_full_paths_to_use_local_path env repo results) = true →
  get_context_from_seagoat env seagoat_address message repo =
    inr (Py.join nl (stanzas (rewrite_full_paths_to_use_local_path env repo results))) ∧
  ∃ res s',
    start_prompt env config seagoat_address repo s = (res, s') ∧
    body_messages <$> posted s' =
      (body_messages <$> posted s) ++
      [messages s ++ [user_message (
         "Answer the users query with the following code snippets from their code repository as your context:" +:+ nl +:+
         Py.join nl (stanzas (rewrite_full_paths_to_use_local_path env repo results)) +:+ nl +:+
         "====" +:+ nl +:+
         "Keep in mind that you only need to use this context if it's actually relevant to the context." +:+ nl +:+
         "Feel free to mention different options, and if possible mention even the code line numbers." +:+ nl +:+
         "Finally, this is the actual user query that you have to answer: " +:+
         dquote +:+ message +:+ dquote +:+ nl +:+ "    ")]].
Proof.
  intros Hread Hquery Hlines.
  assert (Hctx : get_context_from_seagoat env seagoat_address message repo =
            inr (Py.join nl (stanzas
                   (rewrite_full_paths_to_use_local_path env repo results)))).
  { unfold get_context_from_seagoat. rewrite Hquery.
    by rewrite for_results_stanzas. }
  split; [done|].
  destruct (every_utterance_is_sent _ _ _ _ _ _ _ _ Hread Hctx)
    as (res & s' & Hstart & Hposted).
  exists res, s'. split; [done|]. rewrite Hposted, fmap_app. done.
Qed.

Section Scenarios.

Import Sample.

(** C3, at the two sentinels. The user types the quit sentinel, or
    nothing at all: the turn does not end at once. The text is wrapped in
    the template, appended as a user message and sent to the API, whose
    answer is appended in turn, and the turn returns for the next
    prompt. *)
Theorem sentinels_are_sent_as_queries :
  sent_as_query "/q" ∧ sent_as_query EmptyString.
Proof.
  split; eexists; (split; [vm_compute; reflexivity|]);
    split; vm_compute; reflexivity.
Qed.

(** C8, at a rate-limited first call. In non-interactive mode, with
    [explain foo()] on standard input, the first request is answered 429:
    the loop starts a second turn, which reads the rest of standard
    input, the empty string, and sends a second request, for the empty
    utterance; the session ends after the answer to that one. *)
Theorem piped_run_retries_with_empty_input :
  ∃ s', main (env started [] (inr foo_py) limited_then_ok) 3 (args None true)
          (fresh ∅ "explain foo()") = (Break, s') ∧
        body_messages <$> posted s' =
          [[user_message (augmented foo_context "explain foo()")];
           [user_message (augmented foo_context EmptyString)]] ∧
        messages s' = [user_message (augmented foo_context EmptyString);
                       assistant "foo adds two numbers."].
Proof.
  eexists. split; [vm_compute; reflexivity|]. split; vm_compute; reflexivity.
Qed.

(** C4 fails on both kinds of failure. When the search service returns
    a block without lines, [get_context_from_seagoat] raises [IndexError];
    when the SeaGOAT client raises because the service cannot be reached,
    its exception goes through. In both runs the exception leaves
    [start_prompt] and [main], the process ends on it, and no request was
    sent for the utterance. *)
Lemma failed_search_ends_session :
  (∃ s', main (env started ["explain foo()"] (inr [mkResult "foo.py" [mkBlock []]])
                 [inr (answer "foo adds two numbers." 310 12)])
           3 (args None false) (fresh ∅ EmptyString)
         = (Uncaught IndexError, s') ∧
         posted s' = [] ∧ messages s' = [instruction]) ∧
  (∃ s', main (env started ["explain foo()"] (inl RequestsConnectionError)
                 [inr (answer "foo adds two numbers." 310 12)])
           3 (args None false) (fresh ∅ EmptyString)
         = (Uncaught RequestsConnectionError, s') ∧
         posted s' = [] ∧ messages s' = [instruction]).
Proof.
  split; eexists; (split; [vm_compute; reflexivity|]); split; vm_compute; reflexivity.
Qed.

(** C5 fails after a first turn that succeeds and a second that is
    answered 401: the session ends with the second user message in
    memory, and the session record on disk is the one of the first turn,
    without that message. *)
Lemma invalid_key_turn_is_not_persisted :
  ∃ s', main (env started ["explain foo()"; "and bar()?"] (inr [])
                [inr (answer "foo adds two numbers." 310 12);
                 inr (refusal 401 "invalid_api_key")])
          3 (args None false) (fresh ∅ EmptyString) = (Break, s') ∧
        messages s' =
          [instruction; user_message (augmented EmptyString "explain foo()");
           assistant "foo adds two numbers.";
           user_message (augmented EmptyString "and bar()?")] ∧
        session_history s' !! "chatgpt-session-20240101-120000.json" =
          Some (FileJson (session_record "gpt-4"
            [instruction; user_message (augmented EmptyString "explain foo()");
             assistant "foo adds two numbers."] 310 12)) ∧
        user_message (augmented EmptyString "and bar()?") ∉
          [instruction; user_message (augmented EmptyString "explain foo()");
           assistant "foo adds two numbers."].
Proof.
  eexists. split; [vm_compute; reflexivity|].
  split; [vm_compute; reflexivity|]. split; [vm_compute; reflexivity|].
  rewrite !not_elem_of_cons. repeat split; try apply not_elem_of_nil.
  all: vm_compute; discriminate.
Qed.

(** The theorems at work on the sample runs. *)



Lemma success_appends_counts_and_saves_witness :
  ∃ s', start_prompt (one_turn (inr (answer "foo adds two numbers." 310 12)))
          config address repo (fresh ∅ EmptyString) = (inr (), s') ∧
        length (messages s') = 2 ∧
        prompt_tokens s' = 310%Z ∧ completion_tokens s' = 12%Z.
Proof.
  destruct (success_appends_counts_and_saves
              (one_turn (inr (answer "foo adds two numbers." 310 12)))
              config address repo (fresh ∅ EmptyString) asked
              "explain foo()" foo_context
              (answer "foo adds two numbers." 310 12)
              (assistant "foo adds two numbers.") 310 12)
    as (s' & H & _ & _ & Hl & Hp & Hc & _).
  - reflexivity.
  - reflexivity.
  - reflexivity.
  - reflexivity.
  - unfold completion. repeat eexists.
  - exists s'. repeat split; assumption.
Defined.

Lemma retryable_failure_rolls_back_witness :
  ∃ s', start_prompt (one_turn (inr (refusal 429 "rate_limit_exceeded")))
          config address repo (fresh ∅ EmptyString) = (inl KeyboardInterrupt, s') ∧
        messages s' = [] ∧ prompt_tokens s' = 0%Z ∧ completion_tokens s' = 0%Z.
Proof.
  destruct (retryable_failure_rolls_back
              (one_turn (inr (refusal 429 "rate_limit_exceeded")))
              config address repo (fresh ∅ EmptyString) asked
              "explain foo()" foo_context)
    as (s' & H & _ & Hm & _ & Hp & Hc & _).
  - reflexivity.
  - reflexivity.
  - reflexivity.
  - exists s'. repeat split; assumption.
Defined.

Lemma fatal_failure_keeps_message_in_memory_only_witness :
  ∃ e s', start_prompt (one_turn (inr (refusal 401 "invalid_api_key")))
            config address repo (fresh ∅ EmptyString) = (inl e, s') ∧
          messages s' = [user_message (augmented foo_context "explain foo()")] ∧
          session_history s' = ∅.
Proof.
  destruct (fatal_failure_keeps_message_in_memory_only
              (one_turn (inr (refusal 401 "invalid_api_key")))
              config address repo (fresh ∅ EmptyString) asked
              "explain foo()" foo_context (refusal 401 "invalid_api_key"))
    as (e & s' & H & _ & Hm & Hf & _).
  - reflexivity.
  - reflexivity.
  - reflexivity.
  - cbn. rewrite !not_elem_of_cons. repeat split; try discriminate.
    apply not_elem_of_nil.
  - exists e, s'. repeat split; assumption.
Defined.

Lemma context_failure_aborts_turn_witness :
  start_prompt (env started ["explain foo()"] (inr [mkResult "foo.py" [mkBlock []]]) [])
    config address repo (fresh ∅ EmptyString) = (inl IndexError, asked).
Proof.
  apply (context_failure_aborts_turn
           (env started ["explain foo()"] (inr [mkResult "foo.py" [mkBlock []]]) [])
           config address repo (fresh ∅ EmptyString) asked "explain foo()"
           IndexError).
  - reflexivity.
  - reflexivity.
Defined.

Lemma augmented_prompt_layout_witness :
  get_context_from_seagoat
    (one_turn (inr (answer "foo adds two numbers." 310 12)))
    address "explain foo()" repo = inr foo_context.
Proof.
  exact (proj1 (augmented_prompt_layout
                  (one_turn (inr (answer "foo adds two numbers." 310 12)))
                  config address repo (fresh ∅ EmptyString) asked
                  "explain foo()" foo_py eq_refl eq_refl eq_refl)).
Defined.



End Scenarios.

(** * Further properties *)

(** ** More on the session folder *)

(** What [get_last_save_file] returns, for any content of the folder:
    nothing when no name ends in [.json]; otherwise the stripped name of
    one of the [.json] files, and no stripped name is above it. *)
Lemma get_last_save_file_cases (folder : gmap string file) :
  (get_last_save_file folder = None ∧ ∀ f, ¬ json_file folder f) ∨
  (∃ t, get_last_save_file folder = Some t ∧
        (∃ f, json_file folder f ∧ timestamp_of f = t) ∧
        ∀ f, json_file folder f → String.le (timestamp_of f) t).
Proof.
  unfold get_last_save_file.
  set (files := filter _ _).
  assert (Hfiles : ∀ f, f ∈ files ↔ json_file folder f).
  { intros f. unfold files, json_file, os_listdir.
    rewrite list_elem_of_filter, elem_of_elements. tauto. }
  destruct files as [|f0 files'] eqn:Efiles.
  - left. split; [done|]. intros f Hf%Hfiles. by apply elem_of_nil in Hf.
  - right. rewrite <- Efiles in Hfiles |- *.
    set (ts := _ <$> files).
    assert (Hts : ∀ t, t ∈ ts ↔ ∃ f, json_file folder f ∧ timestamp_of f = t).
    { intros t. unfold ts. rewrite list_elem_of_fmap. split.
      - intros (f & -> & Hf%Hfiles). eauto.
      - intros (f & Hf%Hfiles & <-). eauto. }
    assert (Hperm : merge_sort String.le ts ≡ₚ ts) by apply merge_sort_Permutation.
    assert (Hsorted : StronglySorted String.le (merge_sort String.le ts))
      by apply (StronglySorted_merge_sort _).
    destruct (last (merge_sort String.le ts)) as [t|] eqn:Elast.
    + exists t. split; [done|]. split.
      * apply Hts. rewrite <- Hperm. by eapply last_Some_elem_of.
      * intros f Hf. eapply sorted_last_max; [apply _|done..|].
        rewrite Hperm. apply Hts. eauto.
    + apply last_None in Elast. exfalso.
      assert (timestamp_of f0 ∈ ts) as Hin.
      { apply Hts. exists f0. split; [|done]. apply Hfiles. rewrite Efiles. left. }
      rewrite <- Hperm, Elast in Hin. by apply elem_of_nil in Hin.
Qed.

(** X1. [get_last_save_file] finds no last session exactly when no file
    of the folder has a name that ends in [.json]. *)
Theorem get_last_save_file_none_iff (folder : gmap string file) :
  get_last_save_file folder = None ↔
  ∀ f, f ∈ dom folder → Py.endswith f ".json" = false.
Proof.
  destruct (get_last_save_file_cases folder) as [[-> Hnone] | (t & -> & (f & Hf & _) & _)].
  - split; [|done]. intros _ f Hf.
    destruct (Py.endswith f ".json") eqn:E; [|done].
    exfalso. by apply (Hnone f).
  - split; [done|]. intros Hall. destruct Hf as [Hdom Hjson].
    by rewrite (Hall f Hdom) in Hjson.
Qed.

(** X2. Whatever the folder holds, a timestamp that [get_last_save_file]
    returns is the name of one of its [.json] files with every
    [chatgpt-session-] and every [.json] taken out, and it is the
    greatest such name in the order of strings: files that are not saved
    sessions take part as well. *)
Theorem get_last_save_file_greatest_name (folder : gmap string file) (t : string) :
  get_last_save_file folder = Some t →
  (∃ f, f ∈ dom folder ∧ Py.endswith f ".json" = true ∧ timestamp_of f = t) ∧
  ∀ f, f ∈ dom folder → Py.endswith f ".json" = true →
       String.le (timestamp_of f) t.
Proof.
  intros Hget.
  destruct (get_last_save_file_cases folder) as [[Hnone _] | (t' & Ht' & (f & Hf & Hft) & Hmax)].
  - by rewrite Hnone in Hget.
  - rewrite Ht' in Hget. injection Hget as ->. split.
    + exists f. by destruct Hf.
    + intros g Hg Hjson. by apply Hmax.
Qed.

(** X3. A [.json] file whose stripped name is above all others, and for
    which no session file of that name exists, hides every saved
    session: restoring ["last"] looks for the session file of that
    stripped name and, this being a name the file system looks up (not
    longer than [NAME_MAX], without a separator), the missing file is
    reported and the history is left empty. *)
Theorem stray_json_file_hides_sessions (env : Env) (s : State) (f : string) :
  f ∈ dom (session_history s) →
  Py.endswith f ".json" = true →
  (∀ g, g ∈ dom (session_history s) → Py.endswith g ".json" = true →
        String.le (timestamp_of g) (timestamp_of f)) →
  session_history s !! session_file (timestamp_of f) = None →
  file_name (session_file (timestamp_of f)) = true →
  ∃ s', restore_session env "last" s = (inr (), s') ∧
        messages s' = [] ∧
        prompt_tokens s' = prompt_tokens s ∧
        completion_tokens s' = completion_tokens s ∧
        Logged ERROR ("[red bold]File " +:+ session_file (timestamp_of f) +:+ " not found")
          ∈ output s'.
Proof.
  intros Hdom Hjson Hmax Hnone Hname.
  assert (Hget : get_last_save_file (session_history s) = Some (timestamp_of f)).
  { destruct (get_last_save_file_cases (session_history s))
      as [[_ Hno] | (t & Ht & (g & [Hg Hgj] & Hgt) & Hle)].
    - exfalso. by apply (Hno f).
    - rewrite Ht. f_equal. apply (anti_symm String.le).
      + rewrite <- Hgt. by apply Hmax.
      + by apply Hle. }
  assert (Hfile : restore_file (session_history s) "last" = session_file (timestamp_of f))
    by by apply restore_file_last.
  rewrite restore_session_missing by by rewrite Hfile.
  rewrite Hfile. eexists. split; [done|]. repeat split; try done.
  cbn. apply elem_of_app. right. by apply list_elem_of_singleton.
Qed.

Section FolderScenarios.

Import Sample.

Lemma get_last_save_file_greatest_name_witness :
  ∃ f, f ∈ dom cluttered ∧ Py.endswith f ".json" = true ∧ timestamp_of f = "zz-notes".
Proof.
  apply (get_last_save_file_greatest_name cluttered "zz-notes").
  vm_compute. reflexivity.
Defined.

Lemma stray_json_file_hides_sessions_witness :
  ∃ s', restore_session (env started [] (inr []) []) "last"
          (fresh cluttered EmptyString) = (inr (), s') ∧
        messages s' = [] ∧
        Logged ERROR "[red bold]File chatgpt-session-zz-notes.json not found" ∈ output s'.
Proof.
  destruct (stray_json_file_hides_sessions (env started [] (inr []) [])
              (fresh cluttered EmptyString) "zz-notes.json")
    as (s' & H & Hm & _ & _ & Ho).
  - apply elem_of_dom. eexists. vm_compute. reflexivity.
  - reflexivity.
  - intros g Hg Hjson.
    destruct (get_last_save_file_cases cluttered)
      as [[Hnone _] | (t & Ht & _ & Hle)]; [vm_compute in Hnone; discriminate|].
    vm_compute in Ht. injection Ht as <-. by apply Hle.
  - vm_compute. reflexivity.
  - vm_compute. reflexivity.
  - exists s'. repeat split; assumption.
Defined.

End FolderScenarios.

(** ** More on the start-up *)

Lemma loads_refl (s : State) : loads [] s s.
Proof. unfold loads. by rewrite app_nil_r. Qed.

Lemma loads_trans (a b : list json) (s s1 s2 : State) :
  loads a s s1 → loads b s1 s2 → loads (a ++ b) s s2.
Proof.
  intros (Hm & Hp & Hc & Hf & Hi & Hn & Hq & Hl & Ho)
         (Hm' & Hp' & Hc' & Hf' & Hi' & Hn' & Hq' & Hl' & Ho').
  unfold loads. rewrite Hm', Hm, Hp', Hp, Hc', Hc, Hf', Hf, Hi', Hi, Hn', Hn,
    Hq', Hq, Hl', Hl, app_assoc.
  repeat split; try done. intros HE. rewrite Ho', Ho; [done..|]. by rewrite Hl.
Qed.

Lemma logger_info_loads (text : string) (s : State) :
  ∃ s', logger_info text s = (inr (), s') ∧ loads [] s s'.
Proof.
  unfold logger_info, logger_log.
  rewrite (bind_run _ _ s s (logger_level s)) by done.
  case_bool_decide as Hlvl; cbn.
  - eexists. split; [reflexivity|]. unfold loads. cbn. rewrite app_nil_r.
    repeat split; try done. intros HE. rewrite HE in Hlvl. cbn in Hlvl. lia.
  - eexists. split; [reflexivity|]. apply loads_refl.
Qed.

Lemma messages_append_loads (m : json) (s : State) :
  ∃ s', messages_append m s = (inr (), s') ∧ loads [m] s s'.
Proof. eexists. split; [reflexivity|]. by unfold loads. Qed.

(** The loop over the context files. *)
Lemma context_files_loads (files : list (string * string)) (s : State) :
  ∃ s', for_each (λ c : string * string,
            logger_info ("Context file: [green bold]" +:+ c.1) ;;
            messages_append (system_message (Py.strip c.2))) files s = (inr (), s') ∧
        loads (context_messages files) s s'.
Proof.
  revert s. induction files as [|c files IH]; intros s.
  - exists s. split; [done|]. apply loads_refl.
  - cbn [for_each].
    destruct (logger_info_loads ("Context file: [green bold]" +:+ c.1) s)
      as (s1 & E1 & H1).
    destruct (messages_append_loads (system_message (Py.strip c.2)) s1)
      as (s2 & E2 & H2).
    destruct (IH s2) as (s3 & E3 & H3).
    exists s3. split.
    + rewrite (bind_run _ _ s s2 ()); [done|].
      by rewrite (bind_run _ _ s s1 ()).
    + change (context_messages (c :: files))
        with ([] ++ [system_message (Py.strip c.2)] ++ context_messages files).
      eauto using loads_trans.
Qed.

(** [main] from its first line to the restore block: the level of the
    logger is set, the markdown instruction and the context files are
    appended, and what follows runs from there. *)
Lemma startup_before_restore (env : Env) (args : Args) (s : State) :
  ∃ s0 s1,
    s0 = (if arg_non_interactive args then with_logger_level ERROR s else s) ∧
    loads (initial_messages (markdown (configure env args)) (arg_context args)) s0 s1 ∧
    startup env args s =
      (match arg_restore args with
       | Some restore => when (Py.truthy (Some restore)) (restore_session env restore)
       | None => ret ()
       end ;;
       when (arg_json_mode args)
         (logger_info "JSON response mode is active. Your message should contain the [bold]'json'[/bold] word.") ;;
       when (negb (arg_non_interactive args)) (emit ConsoleRule) ;;
       ret (configure env args)) s1.
Proof.
  unfold startup. cbv zeta.
  set (s0 := if arg_non_interactive args then with_logger_level ERROR s else s).
  rewrite (bind_run _ _ s s0 ()) by (unfold s0; by destruct (arg_non_interactive args)).
  destruct (logger_info_loads "[bold]ChatGPT CLI" s0) as (sa & Ea & Ha).
  rewrite (bind_run _ _ _ _ _ Ea).
  destruct (logger_info_loads
              ("Model in use: [green bold]" +:+ model (configure env args)) sa)
    as (sb & Eb & Hb).
  rewrite (bind_run _ _ _ _ _ Eb).
  assert (∃ sc, when (markdown (configure env args)) add_markdown_system_message sb
                  = (inr (), sc) ∧
                loads (if markdown (configure env args)
                       then [system_message "Always use code blocks with the appropriate language tags. If asked for a table always format it using Markdown syntax."]
                       else []) sb sc) as (sc & Ec & Hc).
  { destruct (markdown (configure env args)).
    - apply messages_append_loads.
    - exists sb. split; [done|]. apply loads_refl. }
  rewrite (bind_run _ _ _ _ _ Ec).
  destruct (context_files_loads (arg_context args) sc) as (sd & Ed & Hd).
  rewrite (bind_run _ _ _ _ _ Ed).
  exists s0, sd. split; [done|]. split; [|done].
  unfold initial_messages.
  pose proof (loads_trans _ _ _ _ _ Ha
                (loads_trans _ _ _ _ _ Hb (loads_trans _ _ _ _ _ Hc Hd))) as H.
  exact H.
Qed.

(** The end of the start-up, after the restore block. *)
Lemma startup_end (args : Args) (config : Config) (s : State) :
  ∃ s', (when (arg_json_mode args)
           (logger_info "JSON response mode is active. Your message should contain the [bold]'json'[/bold] word.") ;;
         when (negb (arg_non_interactive args)) (emit ConsoleRule) ;;
         ret config) s = (inr config, s') ∧
        same_conversation s s' ∧ stdin s' = stdin s ∧ prompted s' = prompted s ∧
        logger_level s' = logger_level s ∧
        (arg_non_interactive args = true → logger_level s = ERROR →
         output s' = output s).
Proof.
  assert (∃ s1, when (arg_json_mode args)
                  (logger_info "JSON response mode is active. Your message should contain the [bold]'json'[/bold] word.") s
                = (inr (), s1) ∧ loads [] s s1) as (s1 & E1 & H1).
  { destruct (arg_json_mode args).
    - apply logger_info_loads.
    - exists s. split; [done|]. apply loads_refl. }
  rewrite (bind_run _ _ _ _ _ E1).
  destruct H1 as (Hm & Hp & Hc & Hf & Hi & Hn & Hq & Hl & Ho).
  rewrite app_nil_r in Hm.
  destruct (arg_non_interactive args); cbn.
  - exists s1. split; [done|]. unfold same_conversation. by auto 10.
  - eexists. split; [reflexivity|]. unfold same_conversation. cbn.
    repeat split; try done.
Qed.





(** X7. A session saved by a process can be restored under the timestamp
    of that process: from any state that sees the folder as the save
    left it, the restore gives back the saved messages, whatever the
    history was, and adds the saved counts to the counters. *)
Theorem save_then_restore_by_timestamp (env restoring : Env) (m : string)
    (ms : list json) (p c : Z) (saving s : State) :
  now env ≠ "last" →
  session_history s = session_history (save_history env m ms p c saving).2 →
  ∃ s', restore_session restoring (now env) s = (inr (), s') ∧
        messages s' = ms ∧
        prompt_tokens s' = (prompt_tokens s + p)%Z ∧
        completion_tokens s' = (completion_tokens s + c)%Z.
Proof.
  intros Hne Hfolder.
  destruct (restore_session_record restoring (now env) m ms p c s) as [o Ho].
  { rewrite (restore_file_timestamp _ _ Hne), Hfolder. cbn.
    apply lookup_insert_eq. }
  rewrite Ho. eexists. split; [reflexivity|]. done.
Qed.

Section StartupScenarios.

Import Sample.




Lemma save_then_restore_by_timestamp_witness :
  ∃ s', restore_session (env "20240401-080000" [] (inr []) []) started
          (fresh (session_history
                    (save_history (env started [] (inr []) []) "gpt-4"
                       [user_message "first"; assistant "1"] 10 1
                       (fresh ∅ EmptyString)).2) EmptyString) = (inr (), s') ∧
        messages s' = [user_message "first"; assistant "1"] ∧
        prompt_tokens s' = 10%Z ∧ completion_tokens s' = 1%Z.
Proof.
  apply (save_then_restore_by_timestamp (env started [] (inr []) [])
           (env "20240401-080000" [] (inr []) []) "gpt-4"
           [user_message "first"; assistant "1"] 10 1 (fresh ∅ EmptyString)).
  - discriminate.
  - reflexivity.
Defined.

End StartupScenarios.

(** ** What a run leaves alone *)

Lemma keeps_ret {A B} (f : State → B) (a : A) : keeps f (ret a).
Proof. by intros s res s' [= <- <-]. Qed.

Lemma keeps_raise {A B} (f : State → B) (e : exn) : keeps f (raise (A:=A) e).
Proof. by intros s res s' [= <- <-]. Qed.

Lemma keeps_lift {A B} (f : State → B) (r : exn + A) : keeps f (lift r).
Proof. by intros s res s' [= <- <-]. Qed.

Lemma keeps_gets {A B} (f : State → B) (g : State → A) : keeps f (gets g).
Proof. by intros s res s' [= <- <-]. Qed.

Lemma keeps_modify {B} (f : State → B) (g : State → State) :
  (∀ s, f (g s) = f s) → keeps f (modify g).
Proof. intros Hg s res s' [= <- <-]. apply Hg. Qed.

Lemma keeps_bind {A B C} (f : State → C) (m : Run A) (k : A → Run B) :
  keeps f m → (∀ a, keeps f (k a)) → keeps f (bind m k).
Proof.
  intros Hm Hk s res s'. unfold bind.
  destruct (m s) as [[e|a] s0] eqn:E.
  - intros [= <- <-]. eauto.
  - intros Hka. rewrite (Hk _ _ _ _ Hka). eauto.
Qed.

Lemma keeps_when {B} (f : State → B) (b : bool) (m : Run unit) :
  keeps f m → keeps f (when b m).
Proof. destruct b; [done|]. intros _. apply keeps_ret. Qed.

Lemma keeps_if {A B} (f : State → B) (b : bool) (m1 m2 : Run A) :
  keeps f m1 → keeps f m2 → keeps f (if b then m1 else m2).
Proof. by destruct b. Qed.

Lemma keeps_try_except {A B} (f : State → B) (m : Run A)
    (handler : exn → option (Run A)) :
  keeps f m → (∀ e h, handler e = Some h → keeps f h) →
  keeps f (try_except m handler).
Proof.
  intros Hm Hh s res s'. unfold try_except.
  destruct (m s) as [[e|a] s0] eqn:E.
  - destruct (handler e) as [h|] eqn:Eh.
    + intros Hrun. rewrite (Hh _ _ Eh _ _ _ Hrun). eauto.
    + intros [= <- <-]. eauto.
  - intros [= <- <-]. eauto.
Qed.

Lemma keeps_for_each {A B} (f : State → B) (body : A → Run unit) (l : list A) :
  (∀ x, keeps f (body x)) → keeps f (for_each body l).
Proof.
  intros Hb. induction l as [|x l IH]; [apply keeps_ret|].
  apply keeps_bind; [apply Hb|]. intros _. apply IH.
Qed.

Lemma keeps_messages_pop {B} (f : State → B) :
  (∀ ms s, f (with_messages ms s) = f s) → keeps f messages_pop.
Proof.
  intros Hf s res s'. unfold messages_pop.
  destruct (messages s); intros [= <- <-]; [done|]. apply Hf.
Qed.

Lemma keeps_r_json {B} (f : State → B) (r : Response) : keeps f (r_json r).
Proof. unfold r_json. destruct (json_body r); [apply keeps_ret|apply keeps_raise]. Qed.

Lemma keeps_load_history_data {B} (f : State → B) (env : Env)
    (history_file : string) :
  keeps f (load_history_data env history_file).
Proof.
  intros s res s'. rewrite load_history_data_run. by intros [= <- <-].
Qed.

Ltac keeping side :=
  repeat first
    [ apply keeps_load_history_data | apply keeps_r_json
    | apply keeps_bind; [|intros ?]
    | apply keeps_ret | apply keeps_raise | apply keeps_lift | apply keeps_gets
    | apply keeps_when | apply keeps_if
    | apply keeps_for_each; intros ?
    | apply keeps_messages_pop; intros ? ?; side
    | apply keeps_modify; intros ?; side
    | apply keeps_try_except;
        [|intros ? ?; unfold post_handler; cbv beta;
          repeat case_match; intros ?; simplify_eq]
    | progress unfold emit, logger_log, logger_error, logger_error_value,
        logger_info, logger_setLevel, messages_append, messages_clear,
        case_retry, case_400, case_other, case_200, save_history, dispatch,
        read_message, sys_stdin_read, prompt, post, add_markdown_system_message,
        restore_session
    | match goal with
      | |- keeps _ (match ?x with Some _ => _ | None => _ end) => destruct x
      end
    | progress cbv zeta ].

Section Untouched.

Context (env : Env) (name : string) (Hname : name ≠ SAVE_FILE env).

Ltac other_file :=
  cbn; first [reflexivity | apply lookup_insert_ne; congruence].

Lemma start_prompt_keeps_file (config : Config) (seagoat_address repo : string) :
  keeps (λ s, session_history s !! name) (start_prompt env config seagoat_address repo).
Proof. unfold start_prompt. keeping other_file. Qed.

Lemma startup_keeps_file (args : Args) :
  keeps (λ s, session_history s !! name) (startup env args).
Proof.
  unfold startup. keeping other_file.
Qed.

Lemma loop_keeps_file (fuel : nat) (config : Config) (seagoat_address repo : string)
    (s : State) :
  session_history (loop env fuel config seagoat_address repo s).2 !! name =
    session_history s !! name.
Proof.
  revert s. induction fuel as [|fuel IH]; intros s; [done|].
  cbn [loop].
  destruct (start_prompt env config seagoat_address repo s) as [[e|[]] s1] eqn:E.
  all: pose proof (start_prompt_keeps_file _ _ _ _ _ _ E) as H1; cbn beta in H1.
  - destruct (is_KeyboardInterrupt e); [by rewrite IH|].
    by destruct (is_EOFError e).
  - by rewrite IH.
Qed.

(** X8. From its first line to its end, however it ends, [main] leaves
    every file of the session folder other than its own [SAVE_FILE] as it
    found it: no other session is changed, created or removed. *)
Theorem main_writes_only_its_session_file (fuel : nat) (args : Args) (s : State) :
  session_history (main env fuel args s).2 !! name = session_history s !! name.
Proof.
  unfold main.
  destruct (startup env args s) as [[e|config] s1] eqn:E.
  all: pose proof (startup_keeps_file _ _ _ _ E) as H1; cbn beta in H1.
  - done.
  - by rewrite loop_keeps_file.
Qed.

End Untouched.

(** ** The history only grows *)

Section History.

Context (env : Env) (config : Config) (seagoat_address repo : string).

Lemma case_200_history (r : Response) (s s' : State) (res : exn + unit) :
  case_200 env config r s = (res, s') →
  messages s' = messages s ∨ ∃ a, messages s' = messages s ++ [a].
Proof.
  unfold case_200, r_json.
  destruct (json_body r) as [response|]; run; [|intros [= <- <-]; by left].
  destruct (non_interactive config), (markdown config); run.
  all: repeat match goal with
         | |- context [match ?x with inl _ => _ | inr _ => _ end] =>
             destruct x eqn:?; run
         end.
  all: intros [= <- <-]; cbn; eauto.
Qed.

Lemma dispatch_history (r : Response) (s s' : State) (res : exn + unit)
    (ms : list json) (u : json) :
  messages s = ms ++ [u] →
  dispatch env config r s = (res, s') →
  messages s' = ms ∨ messages s' = ms ++ [u] ∨ ∃ a, messages s' = ms ++ [u; a].
Proof.
  intros Hs. unfold dispatch.
  repeat case_match.
  - intros [HH | [a HH]]%case_200_history; rewrite HH, Hs; [by auto|].
    right; right. exists a. by rewrite <- app_assoc.
  - intros [(HH & _) _]%case_400_frame. rewrite HH, Hs. by auto.
  - unfold bind, raise. rewrite logger_error_run. intros [= <- <-]. cbn. by auto.
  - destruct (case_retry_rolls_back (A:=unit)
                "[red bold]Rate limit or maximum monthly limit exceeded" s ms u Hs)
      as [o ->].
    intros [= <- <-]. by left.
  - destruct (case_retry_rolls_back (A:=unit)
                "[red bold]Internal server error, check https://status.openai.com"
                s ms u Hs) as [o ->].
    intros [= <- <-]. by left.
  - destruct (case_retry_rolls_back (A:=unit)
                "[red bold]The server seems to be overloaded, try again" s ms u Hs)
      as [o ->].
    intros [= <- <-]. by left.
  - intros [(HH & _) _]%case_other_frame. rewrite HH, Hs. by auto.
Qed.

(** What one turn can do to the history and to the requests sent. *)
Lemma start_prompt_footprint_of (s s' : State) (res : exn + unit) :
  start_prompt env config seagoat_address repo s = (res, s') →
  (∃ extra, messages s' = messages s ++ extra ∧ length extra ≤ 2) ∧
  (∃ sent, posted s' = posted s ++ sent ∧ length sent ≤ 1).
Proof.
  destruct (read_message env config s) as [[e|message] s1] eqn:Hread.
  { pose proof (read_message_frame _ _ _ _ _ Hread) as (Hm & _ & _ & _ & Hq & _).
    unfold start_prompt. unfold bind at 1. rewrite Hread. intros [= <- <-].
    split; exists []; rewrite app_nil_r; (split; [done|cbn; lia]). }
  pose proof (read_message_frame _ _ _ _ _ Hread) as (Hm & _ & _ & _ & Hq & _).
  destruct (get_context_from_seagoat env seagoat_address message repo)
    as [e|context] eqn:Hctx.
  { unfold start_prompt. unfold bind at 1. rewrite Hread.
    unfold bind at 1, lift. rewrite Hctx. intros [= <- <-].
    split; exists []; rewrite app_nil_r; (split; [done|cbn; lia]). }
  intros Hstart. split.
  - rewrite (start_prompt_request _ _ _ _ _ _ _ _ Hread Hctx) in Hstart.
    cbv zeta in Hstart.
    unfold bind at 1, try_except in Hstart. rewrite post_run in Hstart.
    cbn [posted with_messages] in Hstart. rewrite Hm in Hstart.
    revert Hstart.
    set (u := user_message (augmented context message)).
    set (sp := with_posted _ _).
    assert (Hsp : messages sp = messages s ++ [u]) by done.
    destruct (requests_post env _ _) as [e|r].
    + unfold post_handler.
      destruct (isinstance_ConnectionError e); [|destruct (isinstance_Timeout e)].
      3: { intros [= <- <-]. exists [u]. (split; [done|cbn; lia]). }
      all: edestruct (case_retry_rolls_back (A:=Response)) as [o ->]; [exact Hsp|].
      all: intros [= <- <-]; exists []; cbn; rewrite app_nil_r; (split; [done|cbn; lia]).
    + intros [H | [H | [a H]]]%(dispatch_history _ _ _ _ _ _ Hsp).
      * exists []. rewrite app_nil_r. (split; [done|cbn; lia]).
      * exists [u]. (split; [done|cbn; lia]).
      * exists [u; a]. (split; [done|cbn; lia]).
  - destruct (every_utterance_is_sent _ _ _ _ _ _ _ _ Hread Hctx)
      as (res' & s'' & Hstart' & Hposted).
    rewrite Hstart in Hstart'. injection Hstart' as <- <-.
    eexists [_]. (split; [done|cbn; lia]).
Qed.

(** X9. Whatever the utterance, the context and the answer of the API,
    a turn appends at most two messages to the history and removes or
    changes none that was there before; and it sends at most one
    request. *)
Theorem start_prompt_footprint (s : State) :
  (∃ extra, messages (start_prompt env config seagoat_address repo s).2 =
              messages s ++ extra ∧ length extra ≤ 2) ∧
  (∃ sent, posted (start_prompt env config seagoat_address repo s).2 =
             posted s ++ sent ∧ length sent ≤ 1).
Proof.
  destruct (start_prompt env config seagoat_address repo s) as [res s'] eqn:E.
  by apply (start_prompt_footprint_of _ _ res).
Qed.

Lemma loop_history (fuel : nat) (s : State) :
  messages s `prefix_of` messages (loop env fuel config seagoat_address repo s).2 ∧
  posted s `prefix_of` posted (loop env fuel config seagoat_address repo s).2 ∧
  length (posted (loop env fuel config seagoat_address repo s).2) ≤
    length (posted s) + fuel.
Proof.
  revert s. induction fuel as [|fuel IH]; intros s.
  { cbn. by rewrite Nat.add_0_r. }
  cbn [loop].
  destruct (start_prompt env config seagoat_address repo s) as [res s1] eqn:E.
  destruct (start_prompt_footprint_of _ _ _ E)
    as [(extra & Hm & _) (sent & Hq & Hl)].
  assert (Hstep : messages s `prefix_of` messages s1 ∧
                  posted s `prefix_of` posted s1 ∧
                  length (posted s1) ≤ length (posted s) + 1).
  { rewrite Hm, Hq, length_app. repeat split; [by eexists..|lia]. }
  destruct Hstep as (Hpm & Hpq & Hlen).
  destruct (IH s1) as (IHm & IHq & IHl).
  assert (Hgo : messages s `prefix_of`
                  messages (loop env fuel config seagoat_address repo s1).2 ∧
                posted s `prefix_of`
                  posted (loop env fuel config seagoat_address repo s1).2 ∧
                length (posted (loop env fuel config seagoat_address repo s1).2) ≤
                  length (posted s) + S fuel).
  { repeat split; [by etrans..|lia]. }
  destruct res as [e|[]]; [|done].
  destruct (is_KeyboardInterrupt e); [done|].
  destruct (is_EOFError e); cbn; repeat split; try done; lia.
Qed.

End History.

(** X10. However long it runs and however it ends, the loop of [main]
    only adds to the history: the messages it started with are still
    there, in the same order, at the front; the same holds for the
    requests sent, and each pass through the loop sends at most one. *)
Theorem loop_only_appends (env : Env) (fuel : nat) (config : Config)
    (seagoat_address repo : string) (s : State) :
  messages s `prefix_of` messages (loop env fuel config seagoat_address repo s).2 ∧
  posted s `prefix_of` posted (loop env fuel config seagoat_address repo s).2 ∧
  length (posted (loop env fuel config seagoat_address repo s).2) ≤
    length (posted s) + fuel.
Proof. apply loop_history. Qed.

(** ** Turns one after the other *)

Section Turns.

Context (env : Env) (config : Config) (seagoat_address repo : string).

(** The state after a turn whose call failed in a retryable way: the
    state after the utterance was read, with the request sent and the
    failure reported. *)
Lemma retryable_turn (s s1 : State) (message context : string) :
  read_message env config s = (inr message, s1) →
  get_context_from_seagoat env seagoat_address message repo = inr context →
  retryable (requests_post env (length (posted s))
               (turn_request config (messages s) context message)) = true →
  ∃ o, start_prompt env config seagoat_address repo s =
         (inl KeyboardInterrupt,
          with_output o
            (with_messages (messages s)
               (with_posted (posted s ++ [turn_request config (messages s) context message])
                  s1))).
Proof.
  intros Hread Hctx Hretry.
  destruct (read_message_frame _ _ _ _ _ Hread) as (Hm & _ & _ & _ & Hq & _).
  rewrite (start_prompt_request _ _ _ _ _ _ _ _ Hread Hctx). cbv zeta.
  unfold bind at 1, try_except. rewrite post_run. cbn [posted with_messages].
  rewrite Hq, Hm. fold (turn_request config (messages s) context message).
  set (req := turn_request config (messages s) context message) in *.
  set (sp := with_posted _ _).
  assert (Hsp : messages sp = messages s ++ [user_message (augmented context message)])
    by done.
  destruct (requests_post env (length (posted s)) req) as [e|r] eqn:E; cbn in Hretry.
  - unfold post_handler.
    destruct (isinstance_ConnectionError e);
      [ | destruct (isinstance_Timeout e); [ | done ] ].
    all: edestruct (case_retry_rolls_back (A:=Response)) as [o ->]; [exact Hsp|].
    all: by exists o.
  - apply bool_decide_eq_true_1 in Hretry.
    unfold dispatch.
    assert (Hs : (status_code r = 429 ∨ status_code r = 500 ∨
                  status_code r = 502 ∨ status_code r = 503)%Z)
      by (revert Hretry; rewrite !elem_of_cons, elem_of_nil; tauto).
    destruct Hs as [-> | [-> | [-> | ->]]]; cbn.
    all: edestruct (case_retry_rolls_back (A:=unit)) as [o ->]; [exact Hsp|].
    all: by exists o.
Qed.

(** The state after a turn answered 200 with a completion whose content
    is [text]. *)
Lemma completion_turn (s s1 : State) (message context text : string)
    (r : Response) (a : json) (p c : Z) :
  read_message env config s = (inr message, s1) →
  get_context_from_seagoat env seagoat_address message repo = inr context →
  requests_post env (length (posted s))
    (turn_request config (messages s) context message) = inr r →
  status_code r = 200%Z →
  completion r a p c →
  Py.getitem a "content" = inr (JStr text) →
  ∃ s', start_prompt env config seagoat_address repo s =
          (if non_interactive config then inl EOFError else inr (), s') ∧
        messages s' = messages s ++ [user_message (augmented context message); a] ∧
        prompt_tokens s' = (prompt_tokens s + p)%Z ∧
        completion_tokens s' = (completion_tokens s + c)%Z ∧
        session_history s' =
          <[SAVE_FILE env := FileJson (session_record (model config) (messages s')
                               (prompt_tokens s') (completion_tokens s'))]>
            (session_history s) ∧
        posted s' = posted s ++ [turn_request config (messages s) context message] ∧
        prompted s' = prompted s1 ∧ stdin s' = stdin s1 ∧
        logger_level s' = logger_level s1 ∧
        output s' = output s1 ++
          (if non_interactive config then [] else [ConsoleLine]) ++
          [if markdown config then ConsoleMarkdown (Py.strip text)
           else Printed (Py.strip text)] ++
          (if non_interactive config then [] else [ConsoleLine]).
Proof.
  intros Hread Hctx Hpost Hstatus
    (response & choices & choice & usage & text' & Hb & H1 & H2 & H3 & H4 & H5 & H6 & H7)
    Htext.
  rewrite H5 in Htext. injection Htext as ->.
  destruct (read_message_frame _ _ _ _ _ Hread) as (Hm & Hp & Hc & Hf & Hq & _ & _).
  rewrite (start_prompt_request _ _ _ _ _ _ _ _ Hread Hctx). cbv zeta.
  unfold bind at 1, try_except. rewrite post_run. cbn [posted with_messages].
  rewrite Hq, Hm. fold (turn_request config (messages s) context message).
  rewrite Hpost. unfold dispatch. rewrite Hstatus. cbn [Z.eqb Pos.eqb].
  unfold case_200, r_json. rewrite Hb.
  run. rewrite H1. run. rewrite H2. run. rewrite H3. run. rewrite H4. run.
  rewrite H5, H6, H7.
  destruct (non_interactive config), (markdown config); cbn.
  all: eexists; split; [reflexivity|]; cbn.
  all: rewrite ?Hp, ?Hc, ?Hf, <- ?app_assoc; cbn.
  all: repeat split; done.
Qed.

(** X11. In interactive mode, a turn that fails in a retryable way and
    the next turn, answered 200, leave together exactly one pair in the
    history: the user message of the second utterance and the answer.
    The message of the failed attempt is in the first request only, and
    the counters move by the usage of the one answer. *)
Theorem retry_then_success_leaves_one_pair (s : State) (m1 m2 c1 c2 : string)
    (r : Response) (a : json) (p c : Z) :
  non_interactive config = false →
  session_prompt env (prompted s) = inr m1 →
  session_prompt env (S (prompted s)) = inr m2 →
  get_context_from_seagoat env seagoat_address m1 repo = inr c1 →
  get_context_from_seagoat env seagoat_address m2 repo = inr c2 →
  retryable (requests_post env (length (posted s))
               (turn_request config (messages s) c1 m1)) = true →
  requests_post env (S (length (posted s)))
    (turn_request config (messages s) c2 m2) = inr r →
  status_code r = 200%Z →
  completion r a p c →
  ∃ s', loop env 2 config seagoat_address repo s = (Running, s') ∧
        messages s' = messages s ++ [user_message (augmented c2 m2); a] ∧
        body_messages <$> posted s' =
          (body_messages <$> posted s) ++
          [messages s ++ [user_message (augmented c1 m1)];
           messages s ++ [user_message (augmented c2 m2)]] ∧
        prompt_tokens s' = (prompt_tokens s + p)%Z ∧
        completion_tokens s' = (completion_tokens s + c)%Z.
Proof.
  intros Hni Hm1 Hm2 Hc1 Hc2 Hretry Hpost Hstatus Hcompl.
  assert (Hread1 : read_message env config s = (inr m1, with_prompted (S (prompted s)) s)).
  { unfold read_message, prompt. rewrite Hni.
    rewrite (bind_run _ _ s s (prompted s)) by done.
    rewrite (bind_run _ _ s (with_prompted (S (prompted s)) s) ()) by done.
    unfold lift. by rewrite Hm1. }
  destruct (retryable_turn _ _ _ _ Hread1 Hc1 Hretry) as [o E1].
  set (sa := with_output o _) in E1.
  assert (Hread2 : read_message env config sa =
                     (inr m2, with_prompted (S (S (prompted s))) sa)).
  { unfold read_message, prompt. rewrite Hni.
    rewrite (bind_run _ _ sa sa (prompted sa)) by done.
    rewrite (bind_run _ _ sa (with_prompted (S (prompted sa)) sa) ()) by done.
    unfold lift. cbn [prompted sa with_prompted with_output with_messages with_posted].
    by rewrite Hm2. }
  pose proof Hcompl as (response & choices & choice & usage & text & Hb & H1 & H2 & H3 & H4 & H5 & _).
  destruct (completion_turn sa _ m2 c2 text r a p c Hread2 Hc2) as (s' & E2 & Hms & Hp & Hc & _ & Hq & _);
    [ cbn; by rewrite length_app, Nat.add_1_r | done | done | done | ].
  exists s'. split.
  - cbn [loop]. rewrite E1. cbn [is_KeyboardInterrupt]. rewrite E2, Hni. done.
  - rewrite Hms, Hq, Hp, Hc. cbn. rewrite !fmap_app. cbn.
    rewrite <- !app_assoc. done.
Qed.

End Turns.

Section MoreTurns.

Context (env : Env) (config : Config) (seagoat_address repo : string).

(** X12. In non-interactive mode, as long as the search answers and the
    API keeps failing in a retryable way, the loop never ends: every
    pass reads what is left of standard input, sends one more request
    and takes its message back, so that after any number of passes the
    history and the counters are what they were and that many requests
    have been sent. *)
Theorem piped_run_never_gives_up :
  non_interactive config = true →
  (∀ message, ∃ context,
     get_context_from_seagoat env seagoat_address message repo = inr context) →
  (∀ n req, retryable (requests_post env n req) = true) →
  ∀ fuel s, ∃ s',
    loop env fuel config seagoat_address repo s = (Running, s') ∧
    messages s' = messages s ∧
    prompt_tokens s' = prompt_tokens s ∧
    completion_tokens s' = completion_tokens s ∧
    length (posted s') = length (posted s) + fuel.
Proof.
  intros Hni Hctx Hretry fuel. induction fuel as [|fuel IH]; intros s.
  { exists s. cbn. by rewrite Nat.add_0_r. }
  assert (Hread : read_message env config s = (inr (stdin s), with_stdin EmptyString s)).
  { unfold read_message. by rewrite Hni. }
  destruct (Hctx (stdin s)) as [context Hc].
  destruct (retryable_turn _ _ _ _ _ _ _ _ Hread Hc (Hretry _ _)) as [o E].
  cbn [loop]. rewrite E. cbn [is_KeyboardInterrupt].
  destruct (IH (with_output o
                  (with_messages (messages s)
                     (with_posted (posted s ++ [turn_request config (messages s) context (stdin s)])
                        (with_stdin EmptyString s)))))
    as (s' & -> & Hm & Hp & Hcc & Hq).
  exists s'. split; [done|]. rewrite Hm, Hp, Hcc, Hq. cbn.
  rewrite length_app. cbn. repeat split; try done. lia.
Qed.

(** X13. In interactive mode, an exception raised by the prompt leaves
    the turn at once: nothing is appended and nothing is sent. On
    [EOFError] (the terminal is closed) the loop ends, on
    [KeyboardInterrupt] it prompts again, and any other exception ends
    the process. *)
Theorem prompt_exception_decides (s : State) (e : exn) :
  non_interactive config = false →
  session_prompt env (prompted s) = inl e →
  start_prompt env config seagoat_address repo s =
    (inl e, with_prompted (S (prompted s)) s) ∧
  ∀ fuel,
    loop env (S fuel) config seagoat_address repo s =
      if is_KeyboardInterrupt e
      then loop env fuel config seagoat_address repo (with_prompted (S (prompted s)) s)
      else (if is_EOFError e then Break else Uncaught e,
            with_prompted (S (prompted s)) s).
Proof.
  intros Hni He.
  assert (Hstart : start_prompt env config seagoat_address repo s =
                     (inl e, with_prompted (S (prompted s)) s)).
  { unfold start_prompt, read_message, prompt. rewrite Hni.
    unfold bind at 1.
    rewrite (bind_run _ _ s s (prompted s)) by done.
    rewrite (bind_run _ _ s (with_prompted (S (prompted s)) s) ()) by done.
    unfold lift. by rewrite He. }
  split; [done|]. intros fuel. cbn [loop]. rewrite Hstart.
  by destruct (is_KeyboardInterrupt e), (is_EOFError e).
Qed.

(** X14. An exception of [requests.post] that is neither a connection
    error nor a timeout is not handled by the turn: the provisional user
    message is not taken back. In particular, when the call is
    interrupted ([KeyboardInterrupt]), the loop prompts again with that
    unanswered message still in the history. *)
Theorem unhandled_post_exception_keeps_message (s s1 : State)
    (message context : string) (e : exn) :
  read_message env config s = (inr message, s1) →
  get_context_from_seagoat env seagoat_address message repo = inr context →
  requests_post env (length (posted s))
    (turn_request config (messages s) context message) = inl e →
  isinstance_ConnectionError e = false →
  isinstance_Timeout e = false →
  ∃ s', start_prompt env config seagoat_address repo s = (inl e, s') ∧
        messages s' = messages s ++ [user_message (augmented context message)] ∧
        prompt_tokens s' = prompt_tokens s ∧
        completion_tokens s' = completion_tokens s ∧
        session_history s' = session_history s ∧
        (e = KeyboardInterrupt →
         ∀ fuel, loop env (S fuel) config seagoat_address repo s =
                   loop env fuel config seagoat_address repo s').
Proof.
  intros Hread Hctx Hpost Hce Hto.
  destruct (read_message_frame _ _ _ _ _ Hread) as (Hm & Hp & Hc & Hf & Hq & _ & _).
  assert (Hstart : start_prompt env config seagoat_address repo s =
            (inl e, with_posted (posted s ++ [turn_request config (messages s) context message])
                      (with_messages
                         (messages s ++ [user_message (augmented context message)]) s1))).
  { rewrite (start_prompt_request _ _ _ _ _ _ _ _ Hread Hctx). cbv zeta.
    unfold bind at 1, try_except. rewrite post_run. cbn [posted with_messages].
    rewrite Hq, Hm. fold (turn_request config (messages s) context message).
    rewrite Hpost. unfold post_handler. by rewrite Hce, Hto. }
  eexists. split; [exact Hstart|]. cbn. repeat split; try done.
  intros -> fuel. cbn [loop]. by rewrite Hstart.
Qed.

Lemma case_200_not_interrupted (r : Response) (s s' : State) :
  case_200 env config r s ≠ (inl KeyboardInterrupt, s').
Proof.
  unfold case_200, r_json.
  destruct (json_body r) as [response|]; run; [|done].
  destruct (non_interactive config), (markdown config); run.
  all: repeat match goal with
         | |- context [match ?x with inl _ => _ | inr _ => _ end] =>
             destruct x eqn:?; run
         end.
  all: intros [= -> _]; try done.
  all: match goal with
       | H : _ = inl KeyboardInterrupt |- _ =>
           first [ apply getitem_error in H | apply getitem0_error in H
                 | apply strip_method_error in H | apply add_error in H ]; done
       end.
Qed.

(** A turn after which the loop prompts again keeps the session file in
    step with the memory. *)
Lemma turn_keeps_saved_in_full (s s' : State) (res : exn + unit) :
  (∀ n req, requests_post env n req ≠ inl KeyboardInterrupt) →
  saved_in_full env config s →
  start_prompt env config seagoat_address repo s = (res, s') →
  res = inr () ∨ res = inl KeyboardInterrupt →
  saved_in_full env config s'.
Proof.
  intros Hpost Hinv Hstart Hres. unfold saved_in_full in *.
  destruct (read_message env config s) as [[e|message] s1] eqn:Hread;
    pose proof (read_message_frame _ _ _ _ _ Hread) as (Hm & Hp & Hc & Hf & Hq & _).
  { revert Hstart. unfold start_prompt. unfold bind at 1. rewrite Hread.
    intros [= <- <-]. by rewrite Hm, Hp, Hc, Hf. }
  destruct (get_context_from_seagoat env seagoat_address message repo)
    as [e|context] eqn:Hctx.
  { revert Hstart. unfold start_prompt. unfold bind at 1. rewrite Hread.
    unfold bind at 1, lift. rewrite Hctx.
    intros [= <- <-]. by rewrite Hm, Hp, Hc, Hf. }
  pose proof Hstart as Hstart0.
  rewrite (start_prompt_request _ _ _ _ _ _ _ _ Hread Hctx) in Hstart.
  cbv zeta in Hstart.
  unfold bind at 1, try_except in Hstart. rewrite post_run in Hstart.
  cbn [posted with_messages] in Hstart. rewrite Hq, Hm in Hstart.
  fold (turn_request config (messages s) context message) in Hstart.
  revert Hstart.
  set (sp := with_posted _ _).
  assert (Hsp : messages sp = messages s ++ [user_message (augmented context message)])
    by done.
  destruct (requests_post env (length (posted s))
              (turn_request config (messages s) context message)) as [e|r] eqn:E.
  - unfold post_handler.
    destruct (isinstance_ConnectionError e); [|destruct (isinstance_Timeout e)].
    3: { intros [= <- <-]. exfalso. destruct Hres as [[=] | [= ->]].
         by eapply Hpost. }
    all: edestruct (case_retry_rolls_back (A:=Response)) as [o ->]; [exact Hsp|].
    all: intros [= <- <-]; cbn; by rewrite Hp, Hc, Hf.
  - destruct (status_code r =? 200)%Z eqn:E200.
    + apply Z.eqb_eq in E200.
      destruct Hres as [-> | ->].
      * intros _.
        destruct (status_200_hands_back_after_saving _ _ _ _ _ _ _ _ _ _ _
                    Hread Hctx E E200 Hstart0 (or_introl eq_refl))
          as (a & up & uc & _ & _ & _ & ->).
        apply lookup_insert_eq.
      * unfold dispatch. rewrite E200. intros H.
        by apply case_200_not_interrupted in H.
    + unfold dispatch. rewrite E200.
      repeat case_match.
      * intros [_ (e & -> & He)]%case_400_frame. destruct Hres as [[=] | [= ->]]. done.
      * unfold bind, raise. rewrite logger_error_run. intros [= <- <-].
        by destruct Hres as [[=] | [=]].
      * edestruct (case_retry_rolls_back (A:=unit)) as [o ->]; [exact Hsp|].
        intros [= <- <-]; cbn; by rewrite Hp, Hc, Hf.
      * edestruct (case_retry_rolls_back (A:=unit)) as [o ->]; [exact Hsp|].
        intros [= <- <-]; cbn; by rewrite Hp, Hc, Hf.
      * edestruct (case_retry_rolls_back (A:=unit)) as [o ->]; [exact Hsp|].
        intros [= <- <-]; cbn; by rewrite Hp, Hc, Hf.
      * intros [_ (e & -> & He)]%case_other_frame. destruct Hres as [[=] | [= ->]]. done.
Qed.

(** X15. Provided [requests.post] is never interrupted, the loop keeps
    the session file in step with the memory: if the file held exactly
    the conversation in memory when the loop was entered, it does so
    again every time the loop is back at the prompt, whatever happened
    in the turns in between. *)
Theorem loop_keeps_session_file_in_step (fuel : nat) (s s' : State) :
  (∀ n req, requests_post env n req ≠ inl KeyboardInterrupt) →
  saved_in_full env config s →
  loop env fuel config seagoat_address repo s = (Running, s') →
  saved_in_full env config s'.
Proof.
  intros Hpost. revert s. induction fuel as [|fuel IH]; intros s Hinv.
  { by intros [= <-]. }
  cbn [loop].
  destruct (start_prompt env config seagoat_address repo s) as [[e|[]] s1] eqn:E.
  - destruct (is_KeyboardInterrupt e) eqn:He.
    + destruct e; try done. apply IH.
      by apply (turn_keeps_saved_in_full _ _ _ Hpost Hinv E); right.
    + by destruct (is_EOFError e).
  - apply IH. by apply (turn_keeps_saved_in_full _ _ _ Hpost Hinv E); left.
Qed.

End MoreTurns.

(** ** The context and the piped run *)

(** X16. The three outcomes of [get_context_from_seagoat]: the exception
    of the SeaGOAT client as it is; [IndexError] as soon as one block of
    one result has no line, whatever the other blocks hold; otherwise
    the stanzas of all blocks. *)
Theorem get_context_outcomes (env : Env) (seagoat_address message repo : string) :
  get_context_from_seagoat env seagoat_address message repo =
    match query_server env message seagoat_address with
    | inl e => inl e
    | inr results =>
        if all_have_lines (rewrite_full_paths_to_use_local_path env repo results)
        then inr (Py.join nl (stanzas
                    (rewrite_full_paths_to_use_local_path env repo results)))
        else inl IndexError
    end.
Proof.
  unfold get_context_from_seagoat.
  destruct (query_server env message seagoat_address) as [e|results]; [done|].
  destruct (all_have_lines _) eqn:E.
  - by rewrite for_results_stanzas.
  - by rewrite for_results_without_lines.
Qed.

(** X17. A non-interactive run without a session to restore, whose one
    request is answered 200: [main] ends after that turn, and all that
    its logger, its console and [print] have written is the stripped
    text of the answer, printed plain: the banner, the model line, the
    context file lines and the rule of the interactive start-up are
    absent, and so is the markdown instruction in the history. *)
Theorem piped_run_prints_only_the_answer (env : Env) (args : Args) (s : State)
    (fuel : nat) (context text : string) (r : Response) (a : json) (p c : Z) :
  arg_non_interactive args = true →
  Py.truthy (arg_restore args) = false →
  get_context_from_seagoat env (get_server_info env (arg_repo args)) (stdin s)
    (arg_repo args) = inr context →
  requests_post env (length (posted s))
    (turn_request (configure env args)
       (messages s ++ context_messages (arg_context args)) context (stdin s)) = inr r →
  status_code r = 200%Z →
  completion r a p c →
  Py.getitem a "content" = inr (JStr text) →
  ∃ s', main env (S fuel) args s = (Break, s') ∧
        output s' = output s ++ [Printed (Py.strip text)] ∧
        messages s' = messages s ++ context_messages (arg_context args) ++
                      [user_message (augmented context (stdin s)); a] ∧
        length (posted s') = S (length (posted s)).
Proof.
  intros Hni Hno Hctx Hpost Hstatus Hcompl Htext.
  assert (Hmd : markdown (configure env args) = false)
    by (unfold configure; cbn; by rewrite Hni).
  assert (Hcni : non_interactive (configure env args) = true)
    by (unfold configure; cbn; by rewrite Hni).
  destruct (startup_before_restore env args s) as (s0 & s1 & Hs0 & Hl & Hstart).
  rewrite Hni in Hs0. rewrite Hmd in Hl.
  destruct Hl as (Hm1 & _ & _ & _ & Hi1 & _ & Hq1 & Hl1 & Ho1).
  assert (match arg_restore args with
          | Some restore => when (Py.truthy (Some restore)) (restore_session env restore)
          | None => ret ()
          end s1 = (inr (), s1)) as E.
  { destruct (arg_restore args) as [restore|]; [|done]. by rewrite Hno. }
  rewrite (bind_run _ _ _ _ _ E) in Hstart.
  destruct (startup_end args (configure env args) s1)
    as (s2 & E2 & (Hm2 & _ & _ & _ & Hq2) & Hi2 & _ & _ & Ho2).
  rewrite E2 in Hstart.
  assert (Hfacts : messages s2 = messages s ++ context_messages (arg_context args) ∧
                   stdin s2 = stdin s ∧ posted s2 = posted s ∧ output s2 = output s).
  { rewrite Hm2, Hm1, Hi2, Hi1, Hq2, Hq1, Ho2, Ho1, Hs0; try done.
    all: by rewrite ?Hl1, Hs0. }
  destruct Hfacts as (Hm & Hi & Hq & Ho).
  assert (Hread : read_message env (configure env args) s2 =
                    (inr (stdin s), with_stdin EmptyString s2)).
  { unfold read_message. rewrite Hcni. by rewrite <- Hi. }
  destruct (completion_turn env (configure env args)
              (get_server_info env (arg_repo args)) (arg_repo args)
              s2 _ (stdin s) context text r a p c Hread Hctx)
    as (s' & Eturn & Hms & _ & _ & _ & Hqs & _ & _ & _ & Hos);
    [by rewrite Hq, Hm | done | done | done |].
  exists s'. split.
  - unfold main. rewrite Hstart. cbn [loop]. rewrite Eturn, Hcni. done.
  - rewrite Hos, Hms, Hqs, Hcni, Hmd, Hm, Hq, length_app. cbn.
    rewrite Ho, <- app_assoc. repeat split; try done. lia.
Qed.

Section MoreScenarios.

Import Sample.

Lemma main_writes_only_its_session_file_witness :
  session_history
    (main (env "20240401-080000" ["explain foo()"] (inr foo_py)
             [inr (answer "foo adds two numbers." 310 12)])
       3 (args None false) (fresh three_sessions EmptyString)).2
    !! session_file "20240315-101500" =
  three_sessions !! session_file "20240315-101500".
Proof.
  apply (main_writes_only_its_session_file
           (env "20240401-080000" ["explain foo()"] (inr foo_py)
              [inr (answer "foo adds two numbers." 310 12)])
           (session_file "20240315-101500")).
  intros H. vm_compute in H. discriminate.
Defined.

Lemma retry_then_success_leaves_one_pair_witness :
  ∃ s', loop (env started ["explain foo()"; "explain foo() again"] (inr foo_py)
                limited_then_ok)
          2 config address repo (fresh ∅ EmptyString) = (Running, s') ∧
        messages s' = [user_message (augmented foo_context "explain foo() again");
                       assistant "foo adds two numbers."] ∧
        prompt_tokens s' = 310%Z ∧ completion_tokens s' = 12%Z.
Proof.
  destruct (retry_then_success_leaves_one_pair
              (env started ["explain foo()"; "explain foo() again"] (inr foo_py)
                 limited_then_ok)
              config address repo (fresh ∅ EmptyString)
              "explain foo()" "explain foo() again" foo_context foo_context
              (answer "foo adds two numbers." 310 12)
              (assistant "foo adds two numbers.") 310 12)
    as (s' & H & Hm & _ & Hp & Hc).
  - reflexivity.
  - reflexivity.
  - reflexivity.
  - reflexivity.
  - reflexivity.
  - reflexivity.
  - reflexivity.
  - reflexivity.
  - unfold completion. repeat eexists.
  - exists s'. repeat split; assumption.
Defined.

Lemma piped_run_never_gives_up_witness :
  ∃ s', loop (env started [] (inr foo_py) []) 5 piped_config address repo
          (fresh ∅ "explain foo()") = (Running, s') ∧
        messages s' = [] ∧ length (posted s') = 5.
Proof.
  destruct (piped_run_never_gives_up (env started [] (inr foo_py) [])
              piped_config address repo) with (fuel := 5) (s := fresh ∅ "explain foo()")
    as (s' & H & Hm & _ & _ & Hq).
  - reflexivity.
  - intros message. eexists. reflexivity.
  - intros n req. cbn. by rewrite lookup_nil.
  - exists s'. repeat split; assumption.
Defined.

Lemma prompt_exception_decides_witness :
  loop (env started [] (inr foo_py) []) 3 config address repo (fresh ∅ EmptyString)
    = (Break, asked).
Proof.
  apply (prompt_exception_decides (env started [] (inr foo_py) [])
           config address repo (fresh ∅ EmptyString) EOFError).
  - reflexivity.
  - reflexivity.
Defined.

Lemma unhandled_post_exception_keeps_message_witness :
  ∃ s', start_prompt (one_turn (inl KeyboardInterrupt)) config address repo
          (fresh ∅ EmptyString) = (inl KeyboardInterrupt, s') ∧
        messages s' = [user_message (augmented foo_context "explain foo()")].
Proof.
  destruct (unhandled_post_exception_keeps_message
              (one_turn (inl KeyboardInterrupt)) config address repo
              (fresh ∅ EmptyString) asked "explain foo()" foo_context
              KeyboardInterrupt)
    as (s' & H & Hm & _).
  - reflexivity.
  - reflexivity.
  - reflexivity.
  - reflexivity.
  - reflexivity.
  - exists s'. split; assumption.
Defined.

Lemma loop_keeps_session_file_in_step_witness :
  ∃ s', loop (one_turn (inr (answer "foo adds two numbers." 310 12)))
          1 config address repo (fresh saved_empty EmptyString) = (Running, s') ∧
        saved_in_full (one_turn (inr (answer "foo adds two numbers." 310 12))) config s'.
Proof.
  eexists. split; [vm_compute; reflexivity|].
  eapply (loop_keeps_session_file_in_step
            (one_turn (inr (answer "foo adds two numbers." 310 12)))
            config address repo 1 (fresh saved_empty EmptyString)).
  - intros [|[|n]] req; cbn; discriminate.
  - vm_compute. reflexivity.
  - vm_compute. reflexivity.
Defined.

Lemma piped_run_prints_only_the_answer_witness :
  ∃ s', main (one_turn (inr (answer " foo adds two numbers. " 310 12))) 1 piped_args
          (fresh ∅ "explain foo()") = (Break, s') ∧
        output s' = [Printed "foo adds two numbers."].
Proof.
  destruct (piped_run_prints_only_the_answer
              (one_turn (inr (answer " foo adds two numbers. " 310 12)))
              piped_args (fresh ∅ "explain foo()") 0 foo_context
              " foo adds two numbers. "
              (answer " foo adds two numbers. " 310 12)
              (assistant " foo adds two numbers. ") 310 12)
    as (s' & H & Ho & _).
  - reflexivity.
  - reflexivity.
  - reflexivity.
  - reflexivity.
  - reflexivity.
  - unfold completion. repeat eexists.
  - reflexivity.
  - exists s'. split; [exact H|exact Ho].
Defined.

End MoreScenarios.


(** * The expense estimate *)

(** ** The rounding of binary64

    What the operations of [SpecFloat] return for the numbers the
    estimate is computed from, and how far that is from the exact
    result. *)

Section Rounding.

Import SpecFloat.

#[local] Open Scope Z_scope.







































End Rounding.

(** ** [calculate_expense] and [display_expense] *)






Section EstimateScenarios.

Import Sample.



End EstimateScenarios.


(** ** A name too long to restore *)


Section LongNameScenario.

Import Sample.


End LongNameScenario.
